(** * Cursor manager of vscode-neovim: a shallow embedding of
      [src/cursor_manager.ts] and the properties of its entry points.

    The class [CursorManager] keeps the cursor of the GUI editors and the
    cursor of the headless engine in step:
    - [handleRedrawBatch] consumes a batch of redraw events of the engine;
    - [onSelectionChanged] forwards a selection change of the GUI;
    - [updateCursorPosInEditor] places the cursor in one editor and reveals it.

    Objects of the host (text editors) live in a heap indexed by references,
    the collaborators handed to the constructor are the variables of the
    section [CursorManager], and every call on the outside world (logger,
    locks, RPC client, reveal requests) is recorded in an ordered trace. *)

From Stdlib Require Import ZArith QArith Lia.
From stdpp Require Import base option list strings gmap functions.

Open Scope Z_scope.

(** ** The part of the [vscode] API the file uses *)

Module Vscode.

(** [Position]: zero-based line and character. *)
Record Position := mkPosition { line : Z; character : Z }.

Definition isBefore (p q : Position) : bool :=
  (line p <? line q) || ((line p =? line q) && (character p <? character q)).

Definition isEqual (p q : Position) : bool :=
  (line p =? line q) && (character p =? character q).

(** [Range]: an ordered pair of positions; [new Range(a, b)] orders them. *)
Record Range := mkRange { start : Position; end_ : Position }.

Definition Range_new (a b : Position) : Range :=
  if isBefore b a then mkRange b a else mkRange a b.

(** [Selection extends Range]: [start]/[end] are the ordered anchor and
    active positions. *)
Record Selection := mkSelection { anchor : Position; active : Position }.

(** The selection value with these coordinates, as the host hands it over. *)
Definition selection_of (anchorLine anchorCharacter activeLine activeCharacter : Z)
  : Selection :=
  mkSelection (mkPosition anchorLine anchorCharacter)
              (mkPosition activeLine activeCharacter).

(** [new Position(line, character)]: an illegal-argument error, given by its
    text, when the line or the character is negative. *)
Definition Position_new (line character : Z) : string + Position :=
  if line <? 0 then inl "line must be non-negative"
  else if character <? 0 then inl "character must be non-negative"
  else inr (mkPosition line character).

(** [new Selection(anchorLine, anchorCharacter, activeLine, activeCharacter)]
    builds the anchor, then the active position. *)
Definition Selection_new (anchorLine anchorCharacter activeLine activeCharacter : Z)
  : string + Selection :=
  match Position_new anchorLine anchorCharacter with
  | inl what => inl what
  | inr anchor =>
      match Position_new activeLine activeCharacter with
      | inl what => inl what
      | inr active => inr (mkSelection anchor active)
      end
  end.

Definition Selection_range (s : Selection) : Range :=
  Range_new (anchor s) (active s).

(** [Range.contains(position)] and [Range.contains(range)]. *)
Definition contains_position (r : Range) (p : Position) : bool :=
  negb (isBefore p (start r) || isBefore (end_ r) p).

Definition contains_range (r inner : Range) : bool :=
  contains_position r (start inner) && contains_position r (end_ inner).

Definition contains (r : Range) (s : Selection) : bool :=
  contains_range r (Selection_range s).

Inductive TextEditorRevealType :=
| Default | InCenter | InCenterIfOutsideViewport | AtTop.

Inductive TextEditorCursorStyle :=
| Line | Block | Underline | LineThin | BlockOutline | UnderlineThin.

Inductive TextEditorSelectionChangeKind := Keyboard | Mouse | Command.

Record TextDocument := mkTextDocument { uri : string }.

(** The state of one [TextEditor] object. *)
Record TextEditor := mkTextEditor {
  document : TextDocument;
  selections : list Selection;
  visibleRanges : list Range;
  viewColumn : option Z;
  cursorStyle : TextEditorCursorStyle   (* options.cursorStyle *)
}.

(** Editors are objects: they are held and compared by reference. *)
Definition EditorRef := nat.

(** The [window] namespace. *)
Record Window := mkWindow {
  visibleTextEditors : list EditorRef;
  activeTextEditor : option EditorRef
}.

(** [TextEditorSelectionChangeEvent]; [kind] may be undefined. *)
Record TextEditorSelectionChangeEvent := mkSelectionChangeEvent {
  textEditor : EditorRef;
  kind : option TextEditorSelectionChangeKind;
  ev_selections : list Selection
}.

End Vscode.
Import Vscode.

(** ** Values of the engine's RPC protocol *)

#[local] Unset Elimination Schemes.
Inductive Value :=
| VStr (s : string)
| VNum (n : Z)
| VArr (items : list Value).
#[local] Set Elimination Schemes.

(** One request of an atomic call: [[name, args]]. *)
Definition Request : Type := string * list Value.

(** An engine position [[line, col]], line one-based. *)
Definition NvimPos : Type := Z * Z.

Definition VPos (p : NvimPos) : Value := VArr [VNum p.1; VNum p.2].

(** ** Collaborators handed to the constructor *)

Record ModeManager := mkModeManager {
  isInsertMode : bool;
  isVisualMode : bool
}.

(** A lookup that finds nothing returns [undefined], here [None]. *)
Record BufferManager := mkBufferManager {
  getEditorFromWinId : Z -> option EditorRef;
  getWinIdForTextEditor : EditorRef -> option Z;
  getGridIdForWinId : Z -> option Z
}.

Record CursorManagerSettings := mkSettings { mouseSelectionEnabled : bool }.

Record CursorInfo := mkCursorInfo { cursorShape : string }.

(** JavaScript truthiness of a [number | undefined] and of a
    [string | undefined]. *)
Definition truthy_number (v : option Z) : bool :=
  match v with Some n => negb (n =? 0) | None => false end.

Definition truthy_string (v : option string) : bool :=
  match v with Some s => negb (String.eqb s "") | None => false end.

(** ** Effects *)

(** The text of a log line, with the values interpolated into it. *)
Inductive LogMessage :=
| msg_ReceivedCursorUpdate (winId line col : Z)
| msg_NoEditorForWinId (winId : Z)
| msg_SelectionChanged
| msg_WaitingLayoutCompletion
| msg_WaitingDocumentChangeCompletion
| msg_SelectionInfo (k : option TextEditorSelectionChangeKind) (winId : option Z)
                    (cursor : Position) (isMultiSelection : bool)
| msg_ProcessingMultiSelection (gridId : option Z)
| msg_StartingVisualMode (pos : NvimPos)
| msg_UpdatingCursorPos (winId : Z) (pos : NvimPos) (createJumpEntry : option bool)
| msg_UpdatingCursorInEditor (viewCol : option Z) (line col : Z).

Inductive Disposable := SelectionSubscription.

(** Calls on the outside world, in the order the code makes them.
    [queueUpdate editor doc line col] is the start of the asynchronous closure
    of [handleRedrawBatch]: it asks for the change-completion lock of [doc] and
    suspends; when resumed it calls [updateCursorPosInEditor editor line col]. *)
Inductive Effect :=
| logger_debug (m : LogMessage)
| logger_warn (m : LogMessage)
| waitForLayoutSync
| getDocumentChangeCompletionLock (doc : TextDocument)
| call_getEditorFromWinId (winId : Z)
| call_getWinIdForTextEditor (editor : EditorRef)
| call_getGridIdForWinId (winId : Z)
| callAtomic (requests : list Request)
| revealRange (editor : EditorRef) (r : Range) (t : TextEditorRevealType)
| queueUpdate (editor : EditorRef) (doc : TextDocument) (line col : Z)
| dispose_disposable (d : Disposable).

(** ** Mutable state: the manager's own field and the editor objects *)

Record State := mkState {
  cursorModes : gmap string CursorInfo;
  editors : EditorRef -> TextEditor
}.

Inductive JsError :=
| TypeError (what : string)
| IllegalArgument (what : string).

Inductive Completion (A : Type) :=
| Normal (a : A)
| Throw (e : JsError).
Arguments Normal {A} a.
Arguments Throw {A} e.

(** A computation reads and writes the state, may throw, and leaves a trace. *)
Definition Eff (A : Type) : Type := State -> Completion A * State * list Effect.

#[global] Instance Eff_ret : MRet Eff := fun A a st => (Normal a, st, []).

#[global] Instance Eff_bind : MBind Eff := fun A B k m st =>
  match m st with
  | (Normal a, st1, tr1) =>
      match k a st1 with (c, st2, tr2) => (c, st2, tr1 ++ tr2) end
  | (Throw e, st1, tr1) => (Throw e, st1, tr1)
  end.

Definition emit (e : Effect) : Eff unit := fun st => (Normal tt, st, [e]).
Definition throw {A} (e : JsError) : Eff A := fun st => (Throw e, st, []).
Definition get_state : Eff State := fun st => (Normal st, st, []).
Definition put_state (st : State) : Eff unit := fun _ => (Normal tt, st, []).

Definition deref (r : EditorRef) : Eff TextEditor :=
  st ← get_state; mret (editors st r).

Definition update_editor (r : EditorRef) (f : TextEditor -> TextEditor) : Eff unit :=
  st ← get_state;
  put_state (mkState (cursorModes st) (<[r := f (editors st r)]> (editors st))).

Definition with_selections (sels : list Selection) (ed : TextEditor) : TextEditor :=
  mkTextEditor (document ed) sels (visibleRanges ed) (viewColumn ed) (cursorStyle ed).

Definition with_cursorStyle (s : TextEditorCursorStyle) (ed : TextEditor) : TextEditor :=
  mkTextEditor (document ed) (selections ed) (visibleRanges ed) (viewColumn ed) s.

Definition set_cursorMode (name : string) (info : CursorInfo) : Eff unit :=
  st ← get_state;
  put_state (mkState (<[name := info]> (cursorModes st)) (editors st)).

(** Running a sequence of statements over the elements of an array. *)
Fixpoint for_of {A} (l : list A) (body : A -> Eff unit) : Eff unit :=
  match l with
  | [] => mret tt
  | x :: rest => body x ;; for_of rest body
  end.

(** Projections of a run. *)
Definition completion {A} (r : Completion A * State * list Effect) : Completion A := r.1.1.
Definition final_state {A} (r : Completion A * State * list Effect) : State := r.1.2.
Definition trace {A} (r : Completion A * State * list Effect) : list Effect := r.2.

(** A run preceded by one more effect. *)
Definition cons_trace {A} (e : Effect) (r : Completion A * State * list Effect)
  : Completion A * State * list Effect :=
  (completion r, final_state r, e :: trace r).

(** The reveal requests, the atomic RPC calls, the warnings and the queued
    cursor updates of a trace. *)
Definition reveals (tr : list Effect) : list (EditorRef * Range * TextEditorRevealType) :=
  omap (fun e => match e with revealRange ed r t => Some (ed, r, t) | _ => None end) tr.

Definition rpc_batches (tr : list Effect) : list (list Request) :=
  omap (fun e => match e with callAtomic reqs => Some reqs | _ => None end) tr.

Definition warnings (tr : list Effect) : list LogMessage :=
  omap (fun e => match e with logger_warn m => Some m | _ => None end) tr.

Definition queued (tr : list Effect) : list (EditorRef * Z * Z) :=
  omap (fun e => match e with queueUpdate ed _ l c => Some (ed, l, c) | _ => None end) tr.

(** JavaScript [a >= b / 2] on numbers: the division is exact, not integral. *)
Definition ge_half (a b : Z) : bool :=
  Qle_bool (inject_Z b / inject_Z 2) (inject_Z a).

(** ** CursorRenderer: [updateCursorPosInEditor] *)

Definition updateCursorPosInEditor (editor : EditorRef) (newLine newCol : Z) : Eff unit :=
  ed ← deref editor;
  emit (logger_debug (msg_UpdatingCursorInEditor (viewColumn ed) newLine newCol)) ;;
  let visibleRange := head (visibleRanges ed) in
  revealCursor ← match Selection_new newLine newCol newLine newCol with
                 | inr s => mret s
                 | inl what => throw (IllegalArgument what)
                 end;
  update_editor editor (with_selections [revealCursor]) ;;
  (* reading [.end] of an undefined range *)
  visibleRange ← match visibleRange with
                 | Some r => mret r
                 | None => throw (TypeError "visibleRange is undefined")
                 end;
  let visibleLines := line (end_ visibleRange) - line (start visibleRange) in
  if contains visibleRange revealCursor then
    emit (revealRange editor (Range_new (active revealCursor) (active revealCursor)) Default)
  else if line (active revealCursor) <? line (start visibleRange) then
    let revealType :=
      if ge_half (line (start visibleRange) - line (active revealCursor)) visibleLines
      then Default else AtTop in
    emit (revealRange editor (Range_new (active revealCursor) (active revealCursor)) revealType)
  else if line (active revealCursor) >? line (end_ visibleRange) then
    let revealType :=
      if ge_half (line (active revealCursor) - line (end_ visibleRange)) visibleLines
      then InCenter else Default in
    emit (revealRange editor (Range_new (active revealCursor) (active revealCursor)) revealType)
  else mret tt.

(** The reveal policy as the specification words it, for a visible range
    [[start, end]] of height [h = end - start] and a target point.  The
    specification names three cases; a target on the first or last visible line
    but outside the range by its character falls in none of them, and gets no
    reveal ([None]). *)
Inductive RevealPolicy :=
| reveal_default
| reveal_jump_to_default_position
| reveal_at_top
| reveal_center.

Definition policy_type (p : RevealPolicy) : TextEditorRevealType :=
  match p with
  | reveal_default => Default
  | reveal_jump_to_default_position => Default
  | reveal_at_top => AtTop
  | reveal_center => InCenter
  end.

Definition point_within (visible : Range) (target : Position) : bool :=
  negb (isBefore target (start visible)) && negb (isBefore (end_ visible) target).

Definition reference_reveal (visible : Range) (target : Position) : option RevealPolicy :=
  let h := line (end_ visible) - line (start visible) in
  if point_within visible target then Some reveal_default
  else if line target <? line (start visible) then
    if Qle_bool (inject_Z h / inject_Z 2) (inject_Z (line (start visible) - line target))
    then Some reveal_jump_to_default_position else Some reveal_at_top
  else if line (end_ visible) <? line target then
    if Qle_bool (inject_Z h / inject_Z 2) (inject_Z (line target - line (end_ visible)))
    then Some reveal_center else Some reveal_default
  else None.

(** A range as the host builds it: its end is not before its start. *)
Definition Range_ordered (r : Range) : Prop := isBefore (end_ r) (start r) = false.

(** The reveal decision of one application: the reveal type requested, if any. *)
Definition reveal_decision (tr : list Effect) : list TextEditorRevealType :=
  (fun x => x.2) <$> reveals tr.

(** ** Redraw events of the engine *)

Record ModeInfo := mkModeInfo {
  mode_name : option string;          (* mode.name *)
  mode_cursor_shape : option string   (* mode.cursor_shape *)
}.

(** One argument tuple of [win_viewport]. *)
Record WinViewport := mkWinViewport {
  vp_grid : Z; vp_win : Z; vp_topline : Z; vp_botline : Z; vp_curline : Z; vp_curcol : Z
}.

(** An event is its name followed by any number of argument tuples. *)
Inductive RedrawEvent :=
| win_viewport (args : list WinViewport)
| mode_info_set (args : list (bool * list ModeInfo))
| mode_change (args : list (string * Z))
| other_event (name : string).

Record CursorPos := mkCursorPos { cp_line : Z; cp_col : Z }.

(** [Map<number, V>]: iteration follows first insertion, and setting an existing
    key replaces its value in place. *)
Fixpoint Map_set {V} (k : Z) (v : V) (m : list (Z * V)) : list (Z * V) :=
  match m with
  | [] => [(k, v)]
  | (k', v') :: rest =>
      if k =? k' then (k, v) :: rest else (k', v') :: Map_set k v rest
  end.

Fixpoint Map_get {V} (k : Z) (m : list (Z * V)) : option V :=
  match m with
  | [] => None
  | (k', v') :: rest => if k =? k' then Some v' else Map_get k rest
  end.

(** Staging one [win_viewport] tuple: [winCursorsUpdates.set(win, {line, col})]. *)
Definition stage_viewport (m : list (Z * CursorPos)) (a : WinViewport) : list (Z * CursorPos) :=
  Map_set (vp_win a) (mkCursorPos (vp_curline a) (vp_curcol a)) m.

(** An event as the engine sends it: [mode_info_set] comes with its argument
    tuple.  (Without one, [modes] is undefined and iterating it throws.) *)
Definition event_well_formed (ev : RedrawEvent) : Prop :=
  match ev with
  | mode_info_set [] => False
  | _ => True
  end.

(** All viewport tuples of a batch, in the order they arrive. *)
Definition viewport_args (batch : list RedrawEvent) : list WinViewport :=
  batch ≫= (fun ev => match ev with win_viewport args => args | _ => [] end).

(** What the second loop of [handleRedrawBatch] does with one staged entry. *)
Definition queued_for (bufferManager : BufferManager) (entry : Z * CursorPos)
  : option (EditorRef * Z * Z) :=
  ed ← getEditorFromWinId bufferManager entry.1;
  Some (ed, cp_line entry.2, cp_col entry.2).

Definition warned_for (bufferManager : BufferManager) (entry : Z * CursorPos)
  : option LogMessage :=
  match getEditorFromWinId bufferManager entry.1 with
  | None => Some (msg_NoEditorForWinId entry.1)
  | Some _ => None
  end.

(** A selection change with several ranges, or whose primary range is not
    collapsed. *)
Definition multi_or_non_collapsed (sels : list Selection) : Prop :=
  1 < Z.of_nat (length sels)
  \/ exists s0, head sels = Some s0 /\ isEqual (active s0) (anchor s0) = false.

(** No mode that has a style loses it. *)
Definition modes_kept (st st' : State) : Prop :=
  forall name, is_Some (cursorModes st !! name) -> is_Some (cursorModes st' !! name).

(** A computation that keeps every mode style, and one that leaves no trace. *)
Definition keeps {A} (m : Eff A) : Prop :=
  forall st, modes_kept st (final_state (m st)).

Definition silent {A} (m : Eff A) : Prop :=
  forall st, trace (m st) = [].

(** ** Further notions used by the properties of the whole object *)

(** The cursor style [updateCursorStyle] gives to a shape. *)
Definition style_of_shape (shape : string) : TextEditorCursorStyle :=
  if String.eqb shape "block" then Block
  else if String.eqb shape "horizontal" then Underline
  else Line.

(** A mode of [mode_info_set] that is recorded: both its name and its shape
    are present and not empty. *)
Definition mode_recorded (mode : ModeInfo) : bool :=
  truthy_string (mode_name mode) && truthy_string (mode_cursor_shape mode).

(** [mode] records a style for the mode called [name]. *)
Definition records (name : string) (mode : ModeInfo) : Prop :=
  mode_recorded mode = true /\ mode_name mode = Some name.

(** What one mode of [mode_info_set] does to the mode map. *)
Definition record_mode (m : gmap string CursorInfo) (mode : ModeInfo)
  : gmap string CursorInfo :=
  if mode_recorded mode
  then <[default "" (mode_name mode) := mkCursorInfo (default "" (mode_cursor_shape mode))]> m
  else m.

(** Two completions of the same kind, whatever value they return. *)
Definition same_outcome {A B} (c : Completion A) (c' : Completion B) : Prop :=
  match c, c' with
  | Normal _, Normal _ => True
  | Throw e, Throw e' => e = e'
  | _, _ => False
  end.

(** A [mode_change] event naming a mode without a style in [st], or any event
    other than [mode_info_set]. *)
Definition event_without_style (st : State) (ev : RedrawEvent) : Prop :=
  match ev with
  | mode_info_set _ => False
  | mode_change args => (fst <$> head args) ≫= (fun n => cursorModes st !! n) = None
  | _ => True
  end.

(** The suspension points and the window lookups of a trace. *)
Definition waits (tr : list Effect) : list Effect :=
  omap (fun e => match e with
               | waitForLayoutSync => Some e
               | getDocumentChangeCompletionLock _ => Some e
               | _ => None
               end) tr.

Definition lookups (tr : list Effect) : list Z :=
  omap (fun e => match e with call_getEditorFromWinId w => Some w | _ => None end) tr.

(** Two states of an editor that differ at most by the cursor style. *)
Definition same_view (ed ed' : TextEditor) : Prop :=
  document ed' = document ed
  /\ selections ed' = selections ed
  /\ visibleRanges ed' = visibleRanges ed
  /\ viewColumn ed' = viewColumn ed.

(** A computation that leaves the state as it is, and one that changes
    editors by their cursor style only. *)
Definition stateless {A} (m : Eff A) : Prop :=
  forall st, final_state (m st) = st.

Definition keeps_views {A} (m : Eff A) : Prop :=
  forall st r, same_view (editors st r) (editors (final_state (m st)) r).

(** ** PositionTranslator *)

Module PositionTranslator.

(** Modelled from the spec: the two conversions of [./utils], which is not
    among the sources.  The engine position has a one-based line and keeps the
    base of the column; the column is carried over as it is, which is the
    engine's byte column on text of single-byte characters. *)
Definition editorPositionToNeovimPosition (editor : TextEditor) (position : Position)
  : NvimPos :=
  (line position + 1, character position).

(** Modelled from the spec: the translated active position of the editor's
    primary selection (an editor always has one; the origin stands in for
    the case without). *)
Definition getNeovimCursorPosFromEditor (editor : TextEditor) : NvimPos :=
  match head (selections editor) with
  | Some s => editorPositionToNeovimPosition editor (active s)
  | None => (1, 0)
  end.

End PositionTranslator.

(** ** Concrete editors, collaborators and events *)

Module Examples.

(** An editor showing lines 10 to 30, with its cursor at (2, 3). *)
Definition editor : TextEditor :=
  mkTextEditor (mkTextDocument "file:///a.txt")
               [selection_of 2 3 2 3]
               [mkRange (mkPosition 10 0) (mkPosition 30 0)]
               (Some 1) Line.

Definition state : State := mkState ∅ (fun _ => editor).

Definition normal_mode : ModeManager := mkModeManager false false.
Definition insert_mode : ModeManager := mkModeManager true false.

(** Window 1000 is bound to editor 0 and to grid 2; window 1001 is unbound. *)
Definition bindings : BufferManager :=
  mkBufferManager (fun w => if w =? 1000 then Some 0%nat else None)
                  (fun _ => Some 1000)
                  (fun w => if w =? 1000 then Some 2 else None).

Definition bindings_without_grid : BufferManager :=
  mkBufferManager (fun w => if w =? 1000 then Some 0%nat else None)
                  (fun _ => Some 1000)
                  (fun _ => None).

Definition forwarding : CursorManagerSettings := mkSettings true.

Definition host : Window := mkWindow [0%nat] (Some 0%nat).

Definition command_move : TextEditorSelectionChangeEvent :=
  mkSelectionChangeEvent 0%nat (Some Command) [selection_of 2 3 2 3].

Definition mouse_drag : TextEditorSelectionChangeEvent :=
  mkSelectionChangeEvent 0%nat (Some Mouse) [selection_of 0 0 1 5].

Definition keyboard_multi : TextEditorSelectionChangeEvent :=
  mkSelectionChangeEvent 0%nat (Some Keyboard)
                         [selection_of 0 0 0 0; selection_of 1 0 1 0].

(** Window 1000 is staged twice, the unbound window 1001 before, in between
    and after. *)
Definition batch : list RedrawEvent :=
  [ win_viewport [mkWinViewport 3 1001 0 20 6 0];
    win_viewport [mkWinViewport 2 1000 0 20 4 5; mkWinViewport 3 1001 0 20 7 8];
    mode_info_set [(true, [mkModeInfo (Some "normal") (Some "block")])];
    mode_change [("normal", 0)];
    win_viewport [mkWinViewport 2 1000 0 20 9 1];
    win_viewport [mkWinViewport 3 1001 0 20 8 2] ].

End Examples.

Module MoreExamples.

(** The mode "normal" has the block style. *)
Definition state_with_modes : State :=
  mkState {[ "normal" := mkCursorInfo "block" ]} (fun _ => Examples.editor).

(** Editor 0 is visible, editor 1 is not. *)
Definition one_visible : Window := mkWindow [0%nat] (Some 0%nat).

(** An editor that shows nothing, with two cursors. *)
Definition hidden_editor : TextEditor :=
  mkTextEditor (mkTextDocument "file:///b.txt")
               [selection_of 0 0 0 0; selection_of 5 1 5 1] [] None Line.

Definition state_hidden : State := mkState ∅ (fun _ => hidden_editor).

(** An editor whose visible range starts at character 4 of line 10. *)
Definition scrolled_editor : TextEditor :=
  mkTextEditor (mkTextDocument "file:///c.txt")
               [selection_of 12 0 12 0]
               [mkRange (mkPosition 10 4) (mkPosition 30 0)]
               (Some 1) Line.

Definition state_scrolled : State := mkState ∅ (fun _ => scrolled_editor).

Definition visual_mode : ModeManager := mkModeManager false true.

(** The editor of the examples after its cursor has moved on to (7, 7). *)
Definition moved_editor : TextEditor :=
  mkTextEditor (mkTextDocument "file:///a.txt")
               [selection_of 7 7 7 7]
               [mkRange (mkPosition 10 0) (mkPosition 30 0)]
               (Some 1) Line.

Definition state_moved : State := mkState ∅ (fun _ => moved_editor).

(** A move by a command to (7, 7). *)
Definition command_move_later : TextEditorSelectionChangeEvent :=
  mkSelectionChangeEvent 0%nat (Some Command) [selection_of 7 7 7 7].

Definition bindings_without_window : BufferManager :=
  mkBufferManager (fun _ => None) (fun _ => None) (fun _ => None).

Definition keyboard_move : TextEditorSelectionChangeEvent :=
  mkSelectionChangeEvent 0%nat (Some Keyboard) [selection_of 2 3 2 3].

(** The change the host reports after the cursor was set to (8, 1) by the
    extension: no kind. *)
Definition echo : TextEditorSelectionChangeEvent :=
  mkSelectionChangeEvent 0%nat None [selection_of 8 1 8 1].

(** Two definitions of "normal", then an entry without a name and one with an
    empty shape. *)
Definition modes : list ModeInfo :=
  [ mkModeInfo (Some "normal") (Some "block");
    mkModeInfo (Some "normal") (Some "horizontal");
    mkModeInfo (Some "insert") (Some "vertical");
    mkModeInfo None (Some "block");
    mkModeInfo (Some "replace") (Some "") ].

(** A batch with viewports and a change to a mode that is not defined. *)
Definition plain_batch : list RedrawEvent :=
  [ win_viewport [mkWinViewport 2 1000 0 20 4 5];
    mode_change [("visual", 3)];
    mode_change [];
    other_event "flush" ].

End MoreExamples.

(** ** The class [CursorManager] *)

Section CursorManager.

(** Constructor arguments and the host's [window]. *)
Variable modeManager : ModeManager.
Variable bufferManager : BufferManager.
Variable settings : CursorManagerSettings.
Variable window : Window.

(** The two imports from [./utils]. *)
Variable editorPositionToNeovimPosition : TextEditor -> Position -> NvimPos.
Variable getNeovimCursorPosFromEditor : TextEditor -> NvimPos.

(** The constructor subscribes to selection changes. *)
Definition disposables : list Disposable := [SelectionSubscription].

Definition dispose : Eff unit :=
  for_of disposables (fun d => emit (dispose_disposable d)).

Definition updateCursorStyle (modeName : option string) : Eff unit :=
  st ← get_state;
  match modeName ≫= (fun n => cursorModes st !! n) with
  | None => mret tt
  | Some modeConf =>
      for_of (visibleTextEditors window) (fun editor =>
        if String.eqb (cursorShape modeConf) "block" then
          update_editor editor (with_cursorStyle Block)
        else if String.eqb (cursorShape modeConf) "horizontal" then
          update_editor editor (with_cursorStyle Underline)
        else
          update_editor editor (with_cursorStyle Line))
  end.

(** One iteration of the first loop of [handleRedrawBatch]. *)
Definition scan_event (ev : RedrawEvent) (winCursorsUpdates : list (Z * CursorPos))
  : Eff (list (Z * CursorPos)) :=
  match ev with
  | win_viewport args =>
      mret (foldl stage_viewport winCursorsUpdates args)
  | mode_info_set args =>
      (* firstArg = args[0] || []; [, modes] = firstArg *)
      match head args with
      | None => throw (TypeError "modes is not iterable")
      | Some (_, modes) =>
          for_of modes (fun mode =>
            if negb (truthy_string (mode_name mode))
               || negb (truthy_string (mode_cursor_shape mode))
            then mret tt
            else set_cursorMode (default "" (mode_name mode))
                                (mkCursorInfo (default "" (mode_cursor_shape mode)))) ;;
          mret winCursorsUpdates
      end
  | mode_change args =>
      updateCursorStyle (fst <$> head args) ;;
      mret winCursorsUpdates
  | other_event _ => mret winCursorsUpdates
  end.

Fixpoint scan_batch (batch : list RedrawEvent) (winCursorsUpdates : list (Z * CursorPos))
  : Eff (list (Z * CursorPos)) :=
  match batch with
  | [] => mret winCursorsUpdates
  | ev :: rest => m ← scan_event ev winCursorsUpdates; scan_batch rest m
  end.

(** One iteration of the second loop of [handleRedrawBatch]. *)
Definition dispatch_update (entry : Z * CursorPos) : Eff unit :=
  let '(winId, cursorPos) := entry in
  emit (logger_debug (msg_ReceivedCursorUpdate winId (cp_line cursorPos) (cp_col cursorPos))) ;;
  emit (call_getEditorFromWinId winId) ;;
  match getEditorFromWinId bufferManager winId with
  | None => emit (logger_warn (msg_NoEditorForWinId winId))
  | Some editor =>
      ed ← deref editor;
      emit (queueUpdate editor (document ed) (cp_line cursorPos) (cp_col cursorPos))
  end.

Definition handleRedrawBatch (batch : list RedrawEvent) : Eff unit :=
  winCursorsUpdates ← scan_batch batch [];
  for_of winCursorsUpdates dispatch_update.

(** The continuation of [queueUpdate], run once the lock is granted. *)
Definition resume_queueUpdate (task : EditorRef * Z * Z) : Eff unit :=
  updateCursorPosInEditor task.1.1 task.1.2 task.2.

Definition is_Mouse (k : option TextEditorSelectionChangeKind) : bool :=
  match k with Some Mouse => true | _ => false end.

Definition unspecified_or_Command (k : option TextEditorSelectionChangeKind) : bool :=
  match k with None | Some Command => true | _ => false end.

Definition same_editor (a : EditorRef) (b : option EditorRef) : bool :=
  match b with Some r => Nat.eqb a r | None => false end.

(** [onSelectionChanged], followed from its call to its end: the two awaited
    promises are requested in order and resolve. *)
Definition onSelectionChanged (e : TextEditorSelectionChangeEvent) : Eff unit :=
  if isInsertMode modeManager then mret tt
  else
    let selections := ev_selections e in
    emit (logger_debug msg_SelectionChanged) ;;
    emit (logger_debug msg_WaitingLayoutCompletion) ;;
    emit waitForLayoutSync ;;
    emit (logger_debug msg_WaitingDocumentChangeCompletion) ;;
    ed ← deref (textEditor e);
    emit (getDocumentChangeCompletionLock (document ed)) ;;
    emit (call_getWinIdForTextEditor (textEditor e)) ;;
    let winId := getWinIdForTextEditor bufferManager (textEditor e) in
    (* selections[0].active *)
    first ← match head selections with
            | Some s => mret s
            | None => throw (TypeError "selections[0] is undefined")
            end;
    let cursor := active first in
    emit (logger_debug
            (msg_SelectionInfo (kind e) winId cursor (1 <? Z.of_nat (length selections)))) ;;
    if negb (truthy_number winId) then mret tt
    else
      let winId := default 0 winId in
      if (1 <? Z.of_nat (length selections)) || negb (isEqual (active first) (anchor first))
      then
        if negb (is_Mouse (kind e)) || negb (mouseSelectionEnabled settings) then mret tt
        else
          emit (call_getGridIdForWinId winId) ;;
          let grid := getGridIdForWinId bufferManager winId in
          emit (logger_debug (msg_ProcessingMultiSelection grid)) ;;
          requests ←
            (if negb (isVisualMode modeManager) && truthy_number grid then
               let firstPos := anchor first in
               ed ← deref (textEditor e);
               let mouseClickPos := editorPositionToNeovimPosition ed firstPos in
               emit (logger_debug (msg_StartingVisualMode mouseClickPos)) ;;
               mret [("nvim_input_mouse",
                      [VStr "left"; VStr "press"; VStr ""; VNum (default 0 grid);
                       VNum (mouseClickPos.1 - 1); VNum mouseClickPos.2]);
                     ("nvim_input", [VStr "v"])]
             else mret []);
          match list.last selections with
          | None => mret tt
          | Some lastSelection =>
              ed ← deref (textEditor e);
              let cursorPos := editorPositionToNeovimPosition ed (active lastSelection) in
              emit (logger_debug (msg_UpdatingCursorPos winId cursorPos None)) ;;
              emit (callAtomic
                      (requests ++ [("nvim_win_set_cursor", [VNum winId; VPos cursorPos])]))
          end
      else
        let createJumpEntry :=
          unspecified_or_Command (kind e)
          && same_editor (textEditor e) (activeTextEditor window) in
        ed ← deref (textEditor e);
        let cursorPos := getNeovimCursorPosFromEditor ed in
        emit (logger_debug (msg_UpdatingCursorPos winId cursorPos (Some createJumpEntry))) ;;
        let requests :=
          [("nvim_win_set_cursor", [VNum winId; VPos cursorPos])]
          ++ (if createJumpEntry
              then [("nvim_call_function",
                     [VStr "VSCodeStoreJumpForWin"; VArr [VNum winId]])]
              else []) in
        emit (callAtomic requests).

(** The entry points of the object, and the resumption of a queued update. *)
Inductive Operation :=
| op_handleRedrawBatch (batch : list RedrawEvent)
| op_onSelectionChanged (e : TextEditorSelectionChangeEvent)
| op_resume_queueUpdate (task : EditorRef * Z * Z)
| op_dispose.

Definition run_operation (op : Operation) : Eff unit :=
  match op with
  | op_handleRedrawBatch batch => handleRedrawBatch batch
  | op_onSelectionChanged e => onSelectionChanged e
  | op_resume_queueUpdate task => resume_queueUpdate task
  | op_dispose => dispose
  end.

(** *** Running a computation step by step *)

Lemma bind_emit {B} (e : Effect) (k : unit -> Eff B) st :
  (emit e ≫= k) st = cons_trace e (k tt st).
Proof.
  unfold mbind, Eff_bind, emit, cons_trace. cbn.
  destruct (k tt st) as [[c s] t]. reflexivity.
Qed.

Lemma bind_ret {A B} (a : A) (k : A -> Eff B) st : (mret a ≫= k) st = k a st.
Proof.
  unfold mbind, Eff_bind, mret, Eff_ret. cbn.
  destruct (k a st) as [[c s] t]. reflexivity.
Qed.

Lemma bind_deref {B} r (k : TextEditor -> Eff B) st :
  (deref r ≫= k) st = k (editors st r) st.
Proof.
  unfold deref, get_state, mbind, Eff_bind, mret, Eff_ret. cbn.
  destruct (k _ st) as [[c s] t]. reflexivity.
Qed.

Lemma bind_get_state {B} (k : State -> Eff B) st : (get_state ≫= k) st = k st st.
Proof.
  unfold get_state, mbind, Eff_bind. cbn.
  destruct (k _ st) as [[c s] t]. reflexivity.
Qed.

Lemma bind_throw {A B} err (k : A -> Eff B) st :
  (throw err ≫= k) st = (Throw err, st, []).
Proof. reflexivity. Qed.

Lemma bind_update_editor {B} r f (k : unit -> Eff B) st :
  (update_editor r f ≫= k) st
  = k tt (mkState (cursorModes st) (<[r := f (editors st r)]> (editors st))).
Proof.
  unfold update_editor, get_state, put_state, mbind, Eff_bind. cbn.
  destruct (k tt _) as [[c s] t]. reflexivity.
Qed.

Lemma run_bind {A B} (m : Eff A) (k : A -> Eff B) st :
  (m ≫= k) st
  = match completion (m st) with
    | Normal a =>
        let r := k a (final_state (m st)) in
        (completion r, final_state r, trace (m st) ++ trace r)
    | Throw e => (Throw e, final_state (m st), trace (m st))
    end.
Proof.
  unfold mbind, Eff_bind, completion, final_state, trace.
  destruct (m st) as [[[a | e] s] t]; cbn; [|reflexivity].
  destruct (k a s) as [[c s'] t']. reflexivity.
Qed.

Lemma ge_half_spec a b : ge_half a b = (b <=? 2 * a).
Proof.
  unfold ge_half, Qle_bool, Qdiv, Qmult, Qinv, inject_Z. cbn.
  f_equal; lia.
Qed.

Ltac eff_step :=
  rewrite ?bind_emit, ?bind_ret, ?bind_deref, ?bind_throw, ?bind_update_editor,
          ?bind_get_state;
  cbv beta.
Ltac eff_run := repeat (progress eff_step).

(** *** CursorRenderer *)

Lemma isBefore_irrefl p : isBefore p p = false.
Proof.
  unfold isBefore. rewrite !Z.ltb_irrefl, Z.eqb_refl. reflexivity.
Qed.

Lemma contains_collapsed visible l c :
  contains visible (selection_of l c l c) = point_within visible (mkPosition l c).
Proof.
  unfold contains, Selection_range, selection_of, Range_new. cbn [anchor active].
  rewrite isBefore_irrefl.
  unfold contains_range, contains_position, point_within. cbn [start end_].
  destruct (isBefore _ (start visible)), (isBefore (end_ visible) _); reflexivity.
Qed.

Lemma Range_new_collapsed p : Range_new p p = mkRange p p.
Proof. unfold Range_new. rewrite isBefore_irrefl. reflexivity. Qed.

(** A target on a line above the first visible one, or below the last one,
    is not within the visible range. *)
Lemma above_not_within visible target :
  line target < line (start visible) -> point_within visible target = false.
Proof.
  intros H. unfold point_within, isBefore.
  apply Z.ltb_lt in H. rewrite H. reflexivity.
Qed.

Lemma below_not_within visible target :
  line (end_ visible) < line target -> point_within visible target = false.
Proof.
  intros H. unfold point_within, isBefore.
  apply Z.ltb_lt in H. rewrite H. apply andb_false_r.
Qed.

(** The constructor accepts the coordinates of a position. *)
Lemma Selection_new_collapsed l c :
  0 <= l -> 0 <= c -> Selection_new l c l c = inr (selection_of l c l c).
Proof.
  intros Hl Hc. unfold Selection_new, Position_new.
  replace (l <? 0) with false by (symmetry; apply Z.ltb_ge; exact Hl).
  replace (c <? 0) with false by (symmetry; apply Z.ltb_ge; exact Hc).
  reflexivity.
Qed.

(** The run of [updateCursorPosInEditor] on an editor with a visible range. *)
Lemma updateCursorPosInEditor_run st editor newLine newCol visible others :
  0 <= newLine -> 0 <= newCol ->
  visibleRanges (editors st editor) = visible :: others ->
  let target := mkPosition newLine newCol in
  updateCursorPosInEditor editor newLine newCol st
  = ( Normal tt,
      mkState (cursorModes st)
              (<[editor := with_selections [selection_of newLine newCol newLine newCol]
                                           (editors st editor)]> (editors st)),
      logger_debug (msg_UpdatingCursorInEditor (viewColumn (editors st editor)) newLine newCol)
      :: match reference_reveal visible target with
         | Some p => [revealRange editor (mkRange target target) (policy_type p)]
         | None => []
         end ).
Proof.
  intros Hline Hcol Hvis target. unfold updateCursorPosInEditor. eff_run.
  rewrite Hvis, (Selection_new_collapsed _ _ Hline Hcol). cbn [head]. eff_run. cbv zeta.
  rewrite contains_collapsed. cbn [active selection_of].
  rewrite Range_new_collapsed, Z.gtb_ltb.
  unfold reference_reveal, ge_half. subst target. cbn [line].
  destruct (point_within visible _); [reflexivity|].
  destruct (newLine <? line (start visible)).
  { destruct (Qle_bool _ (inject_Z (line (start visible) - newLine))); reflexivity. }
  destruct (line (end_ visible) <? newLine); [|reflexivity].
  destruct (Qle_bool _ (inject_Z (newLine - line (end_ visible)))); reflexivity.
Qed.

Lemma reference_reveal_above visible target :
  line target < line (start visible) ->
  reference_reveal visible target
  = Some (if line (end_ visible) - line (start visible)
             <=? 2 * (line (start visible) - line target)
          then reveal_jump_to_default_position else reveal_at_top).
Proof.
  intros Hlt. unfold reference_reveal.
  rewrite (above_not_within visible target Hlt).
  apply Z.ltb_lt in Hlt. rewrite Hlt.
  change (Qle_bool _ _)
    with (ge_half (line (start visible) - line target)
                  (line (end_ visible) - line (start visible))).
  rewrite ge_half_spec. destruct (_ <=? _); reflexivity.
Qed.

Lemma reference_reveal_below visible target :
  Range_ordered visible ->
  line (end_ visible) < line target ->
  reference_reveal visible target
  = Some (if line (end_ visible) - line (start visible)
             <=? 2 * (line target - line (end_ visible))
          then reveal_center else reveal_default).
Proof.
  intros Hord Hgt. unfold reference_reveal.
  rewrite (below_not_within visible target Hgt).
  assert (Hle : line (start visible) <= line (end_ visible)).
  { unfold Range_ordered, isBefore in Hord.
    apply orb_false_iff in Hord as [Hord _]. apply Z.ltb_ge in Hord. exact Hord. }
  replace (line target <? line (start visible)) with false
    by (symmetry; apply Z.ltb_ge; lia).
  apply Z.ltb_lt in Hgt. rewrite Hgt.
  change (Qle_bool _ _)
    with (ge_half (line target - line (end_ visible))
                  (line (end_ visible) - line (start visible))).
  rewrite ge_half_spec. destruct (_ <=? _); reflexivity.
Qed.



(** C1. For an editor whose primary visible range is [[start, end]], of
    height [h = end - start], and a target position (line and column not
    negative), [updateCursorPosInEditor editor line col]
    returns and asks for the reveal the reference definition gives: a default
    reveal when the target point is within the range; above it, a jump to the
    default position when [start - line >= h/2] (that is [h <= 2 * (start -
    line)]) and a reveal at the top otherwise; below it, a centred reveal when
    [line - end >= h/2] and a default reveal otherwise.  A target exactly half
    a height away gets the larger jump. *)
Theorem updateCursorPosInEditor_reveal
    (st : State) (editor : EditorRef) (newLine newCol : Z)
    (visible : Range) (others : list Range) :
  0 <= newLine -> 0 <= newCol ->
  visibleRanges (editors st editor) = visible :: others ->
  Range_ordered visible ->
  let r := updateCursorPosInEditor editor newLine newCol st in
  let target := mkPosition newLine newCol in
  let h := line (end_ visible) - line (start visible) in
  completion r = Normal tt
  /\ reveals (trace r)
     = match reference_reveal visible target with
       | Some p => [(editor, mkRange target target, policy_type p)]
       | None => []
       end
  /\ (point_within visible target = true -> reveal_decision (trace r) = [Default])
  /\ (newLine < line (start visible) ->
      reveal_decision (trace r)
      = [if h <=? 2 * (line (start visible) - newLine) then Default else AtTop])
  /\ (line (end_ visible) < newLine ->
      reveal_decision (trace r)
      = [if h <=? 2 * (newLine - line (end_ visible)) then InCenter else Default])
  /\ (newLine < line (start visible) -> 2 * (line (start visible) - newLine) = h ->
      reveal_decision (trace r) = [Default])
  /\ (line (end_ visible) < newLine -> 2 * (newLine - line (end_ visible)) = h ->
      reveal_decision (trace r) = [InCenter]).
Proof.
  intros Hline Hcol Hvis Hord r target h. subst r.
  rewrite (updateCursorPosInEditor_run _ _ _ _ _ _ Hline Hcol Hvis). fold target.
  unfold completion, trace, reveal_decision. cbn [fst snd].
  pose proof (reference_reveal_above visible target) as Hup.
  pose proof (reference_reveal_below visible target Hord) as Hdown.
  cbn [line target] in Hup, Hdown. fold h in Hup, Hdown.
  repeat split.
  - destruct (reference_reveal visible target); reflexivity.
  - intros Hin. unfold reference_reveal. rewrite Hin. reflexivity.
  - intros Hlt. rewrite (Hup Hlt).
    destruct (h <=? 2 * (line (start visible) - newLine)); reflexivity.
  - intros Hgt. rewrite (Hdown Hgt).
    destruct (h <=? 2 * (newLine - line (end_ visible))); reflexivity.
  - intros Hlt Heq. rewrite (Hup Hlt).
    replace (h <=? 2 * (line (start visible) - newLine)) with true
      by (symmetry; apply Z.leb_le; lia).
    reflexivity.
  - intros Hgt Heq. rewrite (Hdown Hgt).
    replace (h <=? 2 * (newLine - line (end_ visible))) with true
      by (symmetry; apply Z.leb_le; lia).
    reflexivity.
Qed.


(** The run of [updateCursorPosInEditor] on an editor without a visible
    range: the selection is replaced, then reading the range throws. *)
Lemma updateCursorPosInEditor_run_blind st editor newLine newCol :
  0 <= newLine -> 0 <= newCol ->
  visibleRanges (editors st editor) = [] ->
  updateCursorPosInEditor editor newLine newCol st
  = ( Throw (TypeError "visibleRange is undefined"),
      mkState (cursorModes st)
              (<[editor := with_selections [selection_of newLine newCol newLine newCol]
                                           (editors st editor)]> (editors st)),
      [logger_debug
         (msg_UpdatingCursorInEditor (viewColumn (editors st editor)) newLine newCol)] ).
Proof.
  intros Hline Hcol Hvis. unfold updateCursorPosInEditor. eff_run.
  rewrite Hvis, (Selection_new_collapsed _ _ Hline Hcol). cbn [head]. eff_run. reflexivity.
Qed.

(** With the coordinates of a position, the editor is left in every case
    with the one collapsed selection, and nothing else of the state moves. *)
Lemma updateCursorPosInEditor_state st editor newLine newCol :
  0 <= newLine -> 0 <= newCol ->
  final_state (updateCursorPosInEditor editor newLine newCol st)
  = mkState (cursorModes st)
            (<[editor := with_selections [selection_of newLine newCol newLine newCol]
                                         (editors st editor)]> (editors st)).
Proof.
  intros Hline Hcol.
  destruct (visibleRanges (editors st editor)) as [|visible others] eqn:Hvis.
  - rewrite (updateCursorPosInEditor_run_blind _ _ _ _ Hline Hcol Hvis). reflexivity.
  - rewrite (updateCursorPosInEditor_run _ _ _ _ _ _ Hline Hcol Hvis). reflexivity.
Qed.

(** The completion and the trace depend on the editor only through its
    view column and its visible ranges. *)
Lemma updateCursorPosInEditor_same_view st st' editor newLine newCol :
  0 <= newLine -> 0 <= newCol ->
  visibleRanges (editors st' editor) = visibleRanges (editors st editor) ->
  viewColumn (editors st' editor) = viewColumn (editors st editor) ->
  completion (updateCursorPosInEditor editor newLine newCol st')
  = completion (updateCursorPosInEditor editor newLine newCol st)
  /\ trace (updateCursorPosInEditor editor newLine newCol st')
     = trace (updateCursorPosInEditor editor newLine newCol st).
Proof.
  intros Hline Hcolumn Hvis Hcol.
  destruct (visibleRanges (editors st editor)) as [|visible others] eqn:Hv.
  - rewrite (updateCursorPosInEditor_run_blind st' _ _ _ Hline Hcolumn Hvis),
            (updateCursorPosInEditor_run_blind st _ _ _ Hline Hcolumn Hv), Hcol.
    split; reflexivity.
  - rewrite (updateCursorPosInEditor_run st' _ _ _ _ _ Hline Hcolumn Hvis),
            (updateCursorPosInEditor_run st _ _ _ _ _ Hline Hcolumn Hv), Hcol.
    split; reflexivity.
Qed.

(** C9. [updateCursorPosInEditor] is idempotent.  Applying the same
    position [(line, col)] (line and column not negative) to an editor twice
    in a row leaves, as one application
    does, the single collapsed selection at [(line, col)] and the same state
    of every editor; the second application completes as the first and asks
    for the same reveal (a reveal is a request to the host: the visible range
    the extension reads changes only when the host reports a new viewport). *)
Theorem updateCursorPosInEditor_idempotent
    (st : State) (editor : EditorRef) (newLine newCol : Z) :
  0 <= newLine -> 0 <= newCol ->
  let once := updateCursorPosInEditor editor newLine newCol st in
  let twice := updateCursorPosInEditor editor newLine newCol (final_state once) in
  selections (editors (final_state once) editor)
  = [selection_of newLine newCol newLine newCol]
  /\ selections (editors (final_state twice) editor)
     = [selection_of newLine newCol newLine newCol]
  /\ (forall r, editors (final_state twice) r = editors (final_state once) r)
  /\ cursorModes (final_state twice) = cursorModes (final_state once)
  /\ completion twice = completion once
  /\ reveals (trace twice) = reveals (trace once)
  /\ reveal_decision (trace twice) = reveal_decision (trace once).
Proof.
  intros Hline Hcol once twice. subst twice once.
  rewrite !updateCursorPosInEditor_state by assumption. cbn [editors cursorModes].
  rewrite !fn_lookup_insert. cbn [with_selections selections].
  assert (Hsame := updateCursorPosInEditor_same_view st
            (mkState (cursorModes st)
               (<[editor := with_selections [selection_of newLine newCol newLine newCol]
                                            (editors st editor)]> (editors st)))
            editor newLine newCol Hline Hcol).
  cbn [editors] in Hsame. rewrite fn_lookup_insert in Hsame.
  destruct (Hsame eq_refl eq_refl) as [Hc Ht].
  unfold reveal_decision. rewrite Hc, Ht.
  repeat split.
  intros r. destruct (decide (editor = r)) as [<- | Hne].
  - rewrite !fn_lookup_insert. reflexivity.
  - rewrite !fn_lookup_insert_ne by assumption. reflexivity.
Qed.

(** *** SelectionChangeHandler *)

Lemma multi_or_non_collapsed_test s0 rest :
  multi_or_non_collapsed (s0 :: rest) ->
  (1 <? Z.of_nat (length (s0 :: rest))) || negb (isEqual (active s0) (anchor s0)) = true.
Proof.
  intros [H | (s & Hs & Hne)].
  - apply Z.ltb_lt in H. rewrite H. reflexivity.
  - injection Hs as <-. rewrite Hne. apply orb_true_r.
Qed.

(** C4. A selection change received while the engine is in insert mode has
    no effect at all: the handler returns at once, with an empty trace (no
    log line, no wait for the layout or for the document lock, no window
    lookup, no RPC call) and an unchanged state. *)
Theorem onSelectionChanged_insert_mode
    (e : TextEditorSelectionChangeEvent) (st : State) :
  isInsertMode modeManager = true ->
  onSelectionChanged e st = (Normal tt, st, []).
Proof.
  intros Hins. unfold onSelectionChanged. rewrite Hins. reflexivity.
Qed.

(** C5. A selection change with several ranges, or with a primary range that
    is not collapsed, whose origin is not the mouse or for which
    [mouseSelectionEnabled] is off, sends no RPC batch. *)
Theorem onSelectionChanged_not_forwarded
    (e : TextEditorSelectionChangeEvent) (st : State) :
  multi_or_non_collapsed (ev_selections e) ->
  is_Mouse (kind e) = false \/ mouseSelectionEnabled settings = false ->
  rpc_batches (trace (onSelectionChanged e st)) = [].
Proof.
  intros Hsel Hk. unfold onSelectionChanged.
  destruct (isInsertMode modeManager); [reflexivity|].
  destruct (ev_selections e) as [|s0 rest] eqn:Hs.
  { eff_run. reflexivity. }
  cbn [head]. eff_run.
  rewrite (multi_or_non_collapsed_test _ _ Hsel).
  assert (Hdrop : negb (is_Mouse (kind e)) || negb (mouseSelectionEnabled settings) = true).
  { destruct Hk as [-> | ->]; [reflexivity | apply orb_true_r]. }
  rewrite Hdrop.
  destruct (negb (truthy_number (getWinIdForTextEditor bufferManager (textEditor e))));
    reflexivity.
Qed.


(** The requests the handler composes. *)
Lemma onSelectionChanged_mouse_path e st s0 sl winId :
  isInsertMode modeManager = false ->
  getWinIdForTextEditor bufferManager (textEditor e) = Some winId ->
  winId <> 0 ->
  head (ev_selections e) = Some s0 ->
  list.last (ev_selections e) = Some sl ->
  multi_or_non_collapsed (ev_selections e) ->
  kind e = Some Mouse ->
  mouseSelectionEnabled settings = true ->
  let ed := editors st (textEditor e) in
  let gesture :=
    if negb (isVisualMode modeManager)
       && truthy_number (getGridIdForWinId bufferManager winId)
    then [("nvim_input_mouse",
           [VStr "left"; VStr "press"; VStr "";
            VNum (default 0 (getGridIdForWinId bufferManager winId));
            VNum ((editorPositionToNeovimPosition ed (anchor s0)).1 - 1);
            VNum (editorPositionToNeovimPosition ed (anchor s0)).2]);
          ("nvim_input", [VStr "v"])]
    else [] in
  completion (onSelectionChanged e st) = Normal tt
  /\ final_state (onSelectionChanged e st) = st
  /\ rpc_batches (trace (onSelectionChanged e st))
     = [gesture ++ [("nvim_win_set_cursor",
                     [VNum winId; VPos (editorPositionToNeovimPosition ed (active sl))])]].
Proof.
  intros Hins Hwin Hnz Hhd Hlast Hsel Hk Hen ed gesture. subst gesture ed.
  unfold onSelectionChanged. rewrite Hins, Hwin, Hk, Hen, Hlast.
  destruct (ev_selections e) as [|s0' rest] eqn:Hs; [discriminate|].
  injection Hhd as ->.
  cbn [head]. eff_run. cbv zeta. cbn [default]. unfold id.
  rewrite (multi_or_non_collapsed_test _ _ Hsel).
  apply Z.eqb_neq in Hnz.
  change (truthy_number (Some winId)) with (negb (winId =? 0)).
  rewrite Hnz. cbn [is_Mouse negb orb]. eff_run.
  destruct (negb (isVisualMode modeManager)
            && truthy_number (getGridIdForWinId bufferManager winId));
    eff_run; (split; [reflexivity | split; reflexivity]).
Qed.

(** C10. On the mouse path (engine not in insert mode, window bound, several
    ranges or a non-collapsed one, origin the mouse, forwarding on), when the
    engine is not in visual mode and the window has no grid id, the press and
    the ["v"] keystroke are left out: the one atomic batch sent holds only the
    cursor move to the translated active position of the last range. *)
Theorem onSelectionChanged_mouse_without_grid
    (e : TextEditorSelectionChangeEvent) (st : State)
    (s0 sl : Selection) (winId : Z) :
  isInsertMode modeManager = false ->
  getWinIdForTextEditor bufferManager (textEditor e) = Some winId ->
  winId <> 0 ->
  head (ev_selections e) = Some s0 ->
  list.last (ev_selections e) = Some sl ->
  multi_or_non_collapsed (ev_selections e) ->
  kind e = Some Mouse ->
  mouseSelectionEnabled settings = true ->
  isVisualMode modeManager = false ->
  getGridIdForWinId bufferManager winId = None ->
  rpc_batches (trace (onSelectionChanged e st))
  = [[("nvim_win_set_cursor",
       [VNum winId;
        VPos (editorPositionToNeovimPosition (editors st (textEditor e)) (active sl))])]].
Proof.
  intros Hins Hwin Hnz Hhd Hlast Hsel Hk Hen Hvis Hgrid.
  destruct (onSelectionChanged_mouse_path e st s0 sl winId
              Hins Hwin Hnz Hhd Hlast Hsel Hk Hen) as (_ & _ & ->).
  rewrite Hgrid, Hvis. reflexivity.
Qed.

(** C2 (amended). A mouse-originated change with several ranges or a
    non-collapsed one, with forwarding on, the engine neither in insert nor
    in visual mode, a bound window and a bound grid for it, makes the handler
    send exactly one atomic batch of three requests, in this order: a left
    press on the grid at the translated anchor of the first range, its row
    given zero-based (translated line minus one); the keystroke ["v"]; the
    cursor move to the translated active position of the last range. *)
Theorem onSelectionChanged_mouse_starts_visual
    (e : TextEditorSelectionChangeEvent) (st : State)
    (s0 sl : Selection) (winId grid : Z) :
  isInsertMode modeManager = false ->
  getWinIdForTextEditor bufferManager (textEditor e) = Some winId ->
  winId <> 0 ->
  head (ev_selections e) = Some s0 ->
  list.last (ev_selections e) = Some sl ->
  multi_or_non_collapsed (ev_selections e) ->
  kind e = Some Mouse ->
  mouseSelectionEnabled settings = true ->
  isVisualMode modeManager = false ->
  getGridIdForWinId bufferManager winId = Some grid ->
  grid <> 0 ->
  let ed := editors st (textEditor e) in
  rpc_batches (trace (onSelectionChanged e st))
  = [[("nvim_input_mouse",
       [VStr "left"; VStr "press"; VStr ""; VNum grid;
        VNum ((editorPositionToNeovimPosition ed (anchor s0)).1 - 1);
        VNum (editorPositionToNeovimPosition ed (anchor s0)).2]);
      ("nvim_input", [VStr "v"]);
      ("nvim_win_set_cursor",
       [VNum winId; VPos (editorPositionToNeovimPosition ed (active sl))])]].
Proof.
  intros Hins Hwin Hnz Hhd Hlast Hsel Hk Hen Hvis Hgrid Hgnz ed.
  destruct (onSelectionChanged_mouse_path e st s0 sl winId
              Hins Hwin Hnz Hhd Hlast Hsel Hk Hen) as (_ & _ & ->).
  rewrite Hgrid, Hvis. cbn [truthy_number negb andb].
  apply Z.eqb_neq in Hgnz. rewrite Hgnz. reflexivity.
Qed.

(** C3 (amended). A change to a single collapsed selection, received while
    the engine is not in insert mode for an editor bound to a window, whose
    origin is unspecified or a command and whose editor is the active one,
    makes the handler send exactly one atomic batch of two requests, in this
    order: the cursor move to the engine position of the editor's cursor, as
    the editor holds it when the waits are over (the position the change
    reports is not read), then the call of [VSCodeStoreJumpForWin] for that
    window. *)
Theorem onSelectionChanged_collapsed_records_jump
    (e : TextEditorSelectionChangeEvent) (st : State) (s0 : Selection) (winId : Z) :
  isInsertMode modeManager = false ->
  getWinIdForTextEditor bufferManager (textEditor e) = Some winId ->
  winId <> 0 ->
  ev_selections e = [s0] ->
  isEqual (active s0) (anchor s0) = true ->
  unspecified_or_Command (kind e) = true ->
  activeTextEditor window = Some (textEditor e) ->
  rpc_batches (trace (onSelectionChanged e st))
  = [[("nvim_win_set_cursor",
       [VNum winId; VPos (getNeovimCursorPosFromEditor (editors st (textEditor e)))]);
      ("nvim_call_function", [VStr "VSCodeStoreJumpForWin"; VArr [VNum winId]])]].
Proof.
  intros Hins Hwin Hnz Hs Hcol Hk Hact.
  unfold onSelectionChanged. rewrite Hins, Hwin, Hs, Hk, Hact.
  cbn [head]. eff_run. cbv zeta. cbn [default]. unfold id.
  apply Z.eqb_neq in Hnz.
  unfold truthy_number. rewrite Hnz, Hcol. cbn [length Z.of_nat negb orb].
  change (1 <? Z.pos (Pos.of_succ_nat 0)) with false. cbn [orb]. eff_run.
  unfold same_editor. rewrite Nat.eqb_refl. reflexivity.
Qed.


(** *** The mode-style map *)

Lemma modes_kept_refl st : modes_kept st st.
Proof. intros name H. exact H. Qed.

Lemma modes_kept_trans st1 st2 st3 :
  modes_kept st1 st2 -> modes_kept st2 st3 -> modes_kept st1 st3.
Proof. intros H12 H23 name H. apply H23, H12, H. Qed.

Lemma keeps_ret {A} (a : A) : keeps (mret a).
Proof. intros st. apply modes_kept_refl. Qed.

Lemma keeps_emit e : keeps (emit e).
Proof. intros st. apply modes_kept_refl. Qed.

Lemma keeps_throw {A} err : keeps (@throw A err).
Proof. intros st. apply modes_kept_refl. Qed.

Lemma keeps_get_state : keeps get_state.
Proof. intros st. apply modes_kept_refl. Qed.

Lemma keeps_deref r : keeps (deref r).
Proof. intros st. apply modes_kept_refl. Qed.

Lemma keeps_update_editor r f : keeps (update_editor r f).
Proof. intros st name H. exact H. Qed.

Lemma keeps_set_cursorMode name info : keeps (set_cursorMode name info).
Proof.
  intros st other H.
  change (is_Some (<[name := info]> (cursorModes st) !! other)).
  destruct (decide (name = other)) as [<- | Hne].
  - rewrite lookup_insert_eq. eauto.
  - rewrite lookup_insert_ne by assumption. exact H.
Qed.

Lemma keeps_bind {A B} (m : Eff A) (k : A -> Eff B) :
  keeps m -> (forall a, keeps (k a)) -> keeps (m ≫= k).
Proof.
  intros Hm Hk st. rewrite run_bind.
  destruct (completion (m st)) as [a | err].
  - cbn. eapply modes_kept_trans; [apply Hm | apply Hk].
  - apply Hm.
Qed.

Lemma keeps_for_of {A} (l : list A) (body : A -> Eff unit) :
  (forall x, keeps (body x)) -> keeps (for_of l body).
Proof.
  intros Hbody. induction l as [|x rest IH]; cbn [for_of].
  - apply keeps_ret.
  - apply keeps_bind; [apply Hbody | intros _; exact IH].
Qed.

Create HintDb keeps_db.
Hint Resolve keeps_ret keeps_emit keeps_throw keeps_get_state keeps_deref
     keeps_update_editor keeps_set_cursorMode : keeps_db.

Ltac keeps_step :=
  first
    [ solve [auto with keeps_db]
    | apply keeps_bind; [|intro]
    | apply keeps_for_of; intro
    | match goal with
      | |- keeps (if ?c then _ else _) => destruct c
      | |- keeps (match ?x with _ => _ end) => destruct x
      end ].
Ltac keeps_all := cbv zeta; repeat keeps_step.

Lemma keeps_updateCursorStyle modeName : keeps (updateCursorStyle modeName).
Proof.
  unfold updateCursorStyle. apply keeps_bind; [apply keeps_get_state|].
  intros st. keeps_all.
Qed.

Lemma keeps_scan_event ev m : keeps (scan_event ev m).
Proof.
  destruct ev; cbn [scan_event]; keeps_all.
Qed.

Lemma keeps_scan_batch batch : forall m, keeps (scan_batch batch m).
Proof.
  induction batch as [|ev rest IH]; intros m; cbn [scan_batch].
  - apply keeps_ret.
  - apply keeps_bind; [apply keeps_scan_event | intros m'; apply IH].
Qed.

Lemma keeps_handleRedrawBatch batch : keeps (handleRedrawBatch batch).
Proof.
  unfold handleRedrawBatch. apply keeps_bind; [apply keeps_scan_batch|].
  intros staged. apply keeps_for_of. intros [winId cursorPos].
  unfold dispatch_update. keeps_all.
Qed.

Lemma keeps_onSelectionChanged e : keeps (onSelectionChanged e).
Proof. unfold onSelectionChanged. keeps_all. Qed.

Lemma keeps_updateCursorPosInEditor editor l c :
  keeps (updateCursorPosInEditor editor l c).
Proof.
  unfold updateCursorPosInEditor. keeps_all.
Qed.

Lemma keeps_dispose : keeps dispose.
Proof. unfold dispose. keeps_all. Qed.

(** C8 (amended). [dispose] does not clear the mode-style map: it disposes
    of the subscriptions and leaves the state, the map included, as it was.
    No operation of the object, disposal included, removes an entry from the
    map: a mode that has a style before the operation has one after it
    ([mode_info_set] only inserts or overwrites). *)
Theorem cursorModes_never_removed (op : Operation) (st : State) :
  modes_kept st (final_state (run_operation op st))
  /\ final_state (dispose st) = st
  /\ cursorModes (final_state (dispose st)) = cursorModes st.
Proof.
  split; [|split; reflexivity].
  destruct op as [batch | e | task |]; cbn [run_operation].
  - apply keeps_handleRedrawBatch.
  - apply keeps_onSelectionChanged.
  - apply keeps_updateCursorPosInEditor.
  - apply keeps_dispose.
Qed.


(** *** RedrawEventDispatcher *)

Lemma silent_ret {A} (a : A) : silent (mret a).
Proof. intros st. reflexivity. Qed.

Lemma silent_throw {A} err : silent (@throw A err).
Proof. intros st. reflexivity. Qed.

Lemma silent_get_state : silent get_state.
Proof. intros st. reflexivity. Qed.

Lemma silent_update_editor r f : silent (update_editor r f).
Proof. intros st. reflexivity. Qed.

Lemma silent_set_cursorMode name info : silent (set_cursorMode name info).
Proof. intros st. reflexivity. Qed.

Lemma silent_bind {A B} (m : Eff A) (k : A -> Eff B) :
  silent m -> (forall a, silent (k a)) -> silent (m ≫= k).
Proof.
  intros Hm Hk st. rewrite run_bind.
  destruct (completion (m st)) as [a | err].
  - cbn. rewrite Hm, Hk. reflexivity.
  - apply Hm.
Qed.

Lemma silent_for_of {A} (l : list A) (body : A -> Eff unit) :
  (forall x, silent (body x)) -> silent (for_of l body).
Proof.
  intros Hbody. induction l as [|x rest IH]; cbn [for_of].
  - apply silent_ret.
  - apply silent_bind; [apply Hbody | intros _; exact IH].
Qed.

Create HintDb silent_db.
Hint Resolve silent_ret silent_throw silent_get_state silent_update_editor
     silent_set_cursorMode : silent_db.

Ltac silent_step :=
  first
    [ solve [auto with silent_db]
    | apply silent_bind; [|intro]
    | apply silent_for_of; intro
    | match goal with
      | |- silent (if ?c then _ else _) => destruct c
      | |- silent (match ?x with _ => _ end) => destruct x
      end ].
Ltac silent_all := cbv zeta; repeat silent_step.

(** The first loop only stages and updates styles: it calls nothing. *)
Lemma silent_scan_event ev m : silent (scan_event ev m).
Proof.
  destruct ev; cbn [scan_event]; [silent_all..].
Qed.

Lemma silent_scan_batch batch : forall m, silent (scan_batch batch m).
Proof.
  induction batch as [|ev rest IH]; intros m; cbn [scan_batch].
  - apply silent_ret.
  - apply silent_bind; [apply silent_scan_event | intros m'; apply IH].
Qed.

Lemma viewport_args_cons ev rest :
  viewport_args (ev :: rest) = viewport_args [ev] ++ viewport_args rest.
Proof. unfold viewport_args. cbn. rewrite app_nil_r. reflexivity. Qed.

(** Reading the staging map. *)
Lemma Map_get_set_eq {V} k (v : V) m : Map_get k (Map_set k v m) = Some v.
Proof.
  induction m as [|[k' v'] rest IH]; cbn.
  - rewrite Z.eqb_refl. reflexivity.
  - destruct (k =? k') eqn:Hk; cbn; rewrite ?Z.eqb_refl, ?Hk; [reflexivity | exact IH].
Qed.

Lemma Map_get_set_ne {V} k k' (v : V) m :
  k <> k' -> Map_get k (Map_set k' v m) = Map_get k m.
Proof.
  intros Hne. induction m as [|[k0 v0] rest IH]; cbn.
  - apply Z.eqb_neq in Hne. rewrite Hne. reflexivity.
  - destruct (k' =? k0) eqn:Hk; cbn.
    + apply Z.eqb_eq in Hk. subst k0.
      apply Z.eqb_neq in Hne. rewrite Hne. reflexivity.
    + rewrite IH. reflexivity.
Qed.

Lemma Map_set_keys {V} k (v : V) m x :
  x ∈ (Map_set k v m).*1 -> x = k \/ x ∈ m.*1.
Proof.
  induction m as [|[k' v'] rest IH]; cbn.
  - intros H. apply list_elem_of_singleton in H. auto.
  - destruct (k =? k') eqn:Hk; cbn; intros H; apply elem_of_cons in H as [-> | H].
    + auto.
    + right. apply elem_of_cons. auto.
    + right. apply elem_of_cons. auto.
    + destruct (IH H) as [-> | Hin]; [auto | right; apply elem_of_cons; auto].
Qed.

Lemma Map_set_NoDup {V} k (v : V) m : NoDup m.*1 -> NoDup (Map_set k v m).*1.
Proof.
  induction m as [|[k' v'] rest IH]; cbn; intros Hnd.
  - apply NoDup_singleton.
  - apply list.NoDup_cons in Hnd as [Hnotin Hnd].
    destruct (k =? k') eqn:Hk; cbn.
    + apply Z.eqb_eq in Hk. subst k'. apply list.NoDup_cons. auto.
    + apply list.NoDup_cons. split; [|auto].
      intros Hin. apply Map_set_keys in Hin as [-> | Hin]; [|auto].
      rewrite Z.eqb_refl in Hk. discriminate.
Qed.

Lemma staged_NoDup args : forall m,
  NoDup m.*1 -> NoDup (foldl stage_viewport m args).*1.
Proof.
  induction args as [|a rest IH]; intros m Hnd; cbn [foldl]; [exact Hnd|].
  apply IH. apply Map_set_NoDup, Hnd.
Qed.

Lemma Map_get_elem_of {V} k (v : V) m :
  NoDup m.*1 -> (k, v) ∈ m -> Map_get k m = Some v.
Proof.
  induction m as [|[k' v'] rest IH]; cbn; intros Hnd Hin.
  - apply elem_of_nil in Hin. contradiction.
  - apply list.NoDup_cons in Hnd as [Hnotin Hnd].
    apply elem_of_cons in Hin as [[= -> ->] | Hin].
    + rewrite Z.eqb_refl. reflexivity.
    + destruct (k =? k') eqn:Hk; [|auto].
      apply Z.eqb_eq in Hk. subst k'. exfalso. apply Hnotin.
      apply list_elem_of_fmap. exists (k, v). auto.
Qed.

Lemma Map_get_Some {V} k (v : V) m : Map_get k m = Some v -> (k, v) ∈ m.
Proof.
  induction m as [|[k' v'] rest IH]; cbn; [discriminate|].
  destruct (k =? k') eqn:Hk.
  - apply Z.eqb_eq in Hk. subst k'. intros [= ->]. apply elem_of_cons. auto.
  - intros H. apply elem_of_cons. auto.
Qed.

(** Later tuples for other windows do not touch the entry of a window. *)
Lemma staged_other_windows w post : forall m,
  (forall b, b ∈ post -> vp_win b <> w) ->
  Map_get w (foldl stage_viewport m post) = Map_get w m.
Proof.
  induction post as [|b rest IH]; intros m Hother; cbn [foldl]; [reflexivity|].
  rewrite IH.
  - unfold stage_viewport. apply Map_get_set_ne.
    intros ->. apply (Hother b); [apply elem_of_cons; auto | reflexivity].
  - intros b' Hb'. apply Hother. apply elem_of_cons. auto.
Qed.

(** The second loop. *)
Lemma dispatch_update_run entry st :
  dispatch_update entry st
  = ( Normal tt, st,
      logger_debug (msg_ReceivedCursorUpdate entry.1 (cp_line entry.2) (cp_col entry.2))
      :: call_getEditorFromWinId entry.1
      :: match getEditorFromWinId bufferManager entry.1 with
         | None => [logger_warn (msg_NoEditorForWinId entry.1)]
         | Some editor =>
             [queueUpdate editor (document (editors st editor))
                          (cp_line entry.2) (cp_col entry.2)]
         end ).
Proof.
  destruct entry as [winId cursorPos]. unfold dispatch_update. eff_run. cbn [fst snd].
  destruct (getEditorFromWinId bufferManager winId); eff_run; reflexivity.
Qed.

Lemma warnings_app tr1 tr2 : warnings (tr1 ++ tr2) = warnings tr1 ++ warnings tr2.
Proof. apply omap_app. Qed.

Lemma queued_app tr1 tr2 : queued (tr1 ++ tr2) = queued tr1 ++ queued tr2.
Proof. apply omap_app. Qed.

Lemma omap_cons_list {A B} (f : A -> option B) x l :
  omap f (x :: l) = match f x with Some y => [y] | None => [] end ++ omap f l.
Proof. cbn. destruct (f x); reflexivity. Qed.

Lemma dispatch_update_warnings entry st :
  warnings (trace (dispatch_update entry st))
  = match warned_for bufferManager entry with Some y => [y] | None => [] end.
Proof.
  rewrite dispatch_update_run. unfold warned_for.
  destruct (getEditorFromWinId bufferManager entry.1); reflexivity.
Qed.

Lemma dispatch_update_queued entry st :
  queued (trace (dispatch_update entry st))
  = match queued_for bufferManager entry with Some y => [y] | None => [] end.
Proof.
  rewrite dispatch_update_run. unfold queued_for.
  destruct (getEditorFromWinId bufferManager entry.1); reflexivity.
Qed.

Lemma dispatch_loop_run staged st :
  completion (for_of staged dispatch_update st) = Normal tt
  /\ final_state (for_of staged dispatch_update st) = st
  /\ warnings (trace (for_of staged dispatch_update st))
     = omap (warned_for bufferManager) staged
  /\ queued (trace (for_of staged dispatch_update st))
     = omap (queued_for bufferManager) staged.
Proof.
  induction staged as [|entry rest (IHc & IHs & IHw & IHq)]; cbn [for_of].
  - repeat split.
  - rewrite run_bind.
    assert (Hc : completion (dispatch_update entry st) = Normal tt)
      by (rewrite dispatch_update_run; reflexivity).
    assert (Hs : final_state (dispatch_update entry st) = st)
      by (rewrite dispatch_update_run; reflexivity).
    rewrite Hc, Hs. cbv zeta. cbn [completion final_state trace fst snd].
    fold (completion (for_of rest dispatch_update st)).
    fold (final_state (for_of rest dispatch_update st)).
    fold (trace (for_of rest dispatch_update st)).
    fold (trace (dispatch_update entry st)).
    rewrite warnings_app, queued_app, IHw, IHq, !omap_cons_list,
            dispatch_update_warnings, dispatch_update_queued.
    repeat split; assumption.
Qed.

(** The first loop completes on the events the engine sends. *)
Lemma for_of_completes {A} (l : list A) (body : A -> Eff unit) :
  (forall x st, completion (body x st) = Normal tt) ->
  forall st, completion (for_of l body st) = Normal tt.
Proof.
  intros Hbody. induction l as [|x rest IH]; intros st; cbn [for_of].
  - reflexivity.
  - rewrite run_bind, Hbody. cbn. apply IH.
Qed.

Lemma updateCursorStyle_completes modeName st :
  completion (updateCursorStyle modeName st) = Normal tt.
Proof.
  unfold updateCursorStyle. rewrite bind_get_state.
  destruct (modeName ≫= _) as [modeConf|]; [|reflexivity].
  apply for_of_completes. intros editor st'.
  destruct (String.eqb _ "block"); [reflexivity|].
  destruct (String.eqb _ "horizontal"); reflexivity.
Qed.

Lemma scan_event_completes ev m st :
  event_well_formed ev ->
  completion (scan_event ev m st) = Normal (foldl stage_viewport m (viewport_args [ev])).
Proof.
  destruct ev as [args | args | args | name]; cbn [scan_event]; intros Hwf.
  - cbn. rewrite app_nil_r. reflexivity.
  - destruct args as [|[enabled modes] others]; [contradiction|]. cbn [head].
    rewrite run_bind, for_of_completes; [reflexivity|].
    intros mode st'. destruct (negb _ || negb _); reflexivity.
  - rewrite run_bind, updateCursorStyle_completes. reflexivity.
  - reflexivity.
Qed.

Lemma scan_batch_completes batch :
  Forall event_well_formed batch ->
  forall m st,
    completion (scan_batch batch m st)
    = Normal (foldl stage_viewport m (viewport_args batch)).
Proof.
  induction 1 as [|ev rest Hev _ IH]; intros m st; cbn [scan_batch].
  - reflexivity.
  - rewrite viewport_args_cons, foldl_app.
    rewrite run_bind, (scan_event_completes ev m st Hev). cbv beta iota zeta.
    apply IH.
Qed.

Lemma scan_batch_run batch st :
  Forall event_well_formed batch ->
  scan_batch batch [] st
  = ( Normal (foldl stage_viewport [] (viewport_args batch)),
      final_state (scan_batch batch [] st), [] ).
Proof.
  intros Hwf.
  pose proof (scan_batch_completes batch Hwf [] st) as Hc.
  pose proof (silent_scan_batch batch [] st) as Ht.
  destruct (scan_batch batch [] st) as [[c st1] tr1].
  cbn in Hc, Ht. subst c tr1. reflexivity.
Qed.

Lemma handleRedrawBatch_run batch st staged st1 tr1 :
  scan_batch batch [] st = (Normal staged, st1, tr1) ->
  completion (handleRedrawBatch batch st) = Normal tt
  /\ final_state (handleRedrawBatch batch st) = st1
  /\ warnings (trace (handleRedrawBatch batch st)) = omap (warned_for bufferManager) staged
  /\ queued (trace (handleRedrawBatch batch st)) = omap (queued_for bufferManager) staged.
Proof.
  intros Hscan. unfold handleRedrawBatch. rewrite run_bind.
  pose proof (silent_scan_batch batch [] st) as Hsilent.
  rewrite Hscan in *. cbn [completion final_state trace fst snd] in *. subst tr1.
  cbn [app].
  apply dispatch_loop_run.
Qed.


(** C6. A staged window without an editor neither throws nor stops the
    processing of the batch.  On every batch of events the engine sends,
    [handleRedrawBatch] returns; each staged window without an editor gets its
    warning and no queued update, and each staged window with an editor gets
    its update queued, whatever the other windows of the batch are. *)
Theorem handleRedrawBatch_unbound_window (batch : list RedrawEvent) (st : State) :
  Forall event_well_formed batch ->
  let r := handleRedrawBatch batch st in
  let staged := foldl stage_viewport [] (viewport_args batch) in
  completion (scan_batch batch [] st) = Normal staged
  /\ completion r = Normal tt
  /\ warnings (trace r) = omap (warned_for bufferManager) staged
  /\ queued (trace r) = omap (queued_for bufferManager) staged
  /\ (forall winId pos,
        (winId, pos) ∈ staged -> getEditorFromWinId bufferManager winId = None ->
        msg_NoEditorForWinId winId ∈ warnings (trace r))
  /\ (forall winId pos editor,
        (winId, pos) ∈ staged -> getEditorFromWinId bufferManager winId = Some editor ->
        (editor, cp_line pos, cp_col pos) ∈ queued (trace r)).
Proof.
  intros Hwf r staged. subst r.
  pose proof (scan_batch_run batch st Hwf) as Hscan. fold staged in Hscan.
  destruct (handleRedrawBatch_run batch st staged _ _ Hscan) as (Hc & _ & Hw & Hq).
  rewrite Hc, Hw, Hq, Hscan.
  split; [reflexivity|]. split; [reflexivity|].
  split; [reflexivity|]. split; [reflexivity|]. split.
  - intros winId pos Hin Hnone. apply list_elem_of_omap.
    exists (winId, pos). split; [exact Hin|].
    unfold warned_for. cbn [fst]. rewrite Hnone. reflexivity.
  - intros winId pos editor Hin Hsome. apply list_elem_of_omap.
    exists (winId, pos). split; [exact Hin|].
    unfold queued_for. cbn [fst snd]. rewrite Hsome. reflexivity.
Qed.

(** C7. Last write wins within a batch.  When the last viewport tuple of the
    batch for a window is [a] (no later tuple of the batch names that
    window), the position staged for the window is [(curline a, curcol a)]
    and no other; if the window has an editor, that is the position of the
    update queued for it, and the one [updateCursorPosInEditor] is called
    with when the update resumes. *)
Theorem handleRedrawBatch_last_write_wins
    (batch : list RedrawEvent) (st : State)
    (pre post : list WinViewport) (a : WinViewport) :
  Forall event_well_formed batch ->
  viewport_args batch = pre ++ a :: post ->
  Forall (fun b => vp_win b <> vp_win a) post ->
  let pos := mkCursorPos (vp_curline a) (vp_curcol a) in
  let r := handleRedrawBatch batch st in
  let staged := foldl stage_viewport [] (viewport_args batch) in
  completion (scan_batch batch [] st) = Normal staged
  /\ Map_get (vp_win a) staged = Some pos
  /\ (forall p, (vp_win a, p) ∈ staged -> p = pos)
  /\ queued (trace r) = omap (queued_for bufferManager) staged
  /\ (forall editor,
        getEditorFromWinId bufferManager (vp_win a) = Some editor ->
        (editor, vp_curline a, vp_curcol a) ∈ queued (trace r)
        /\ resume_queueUpdate (editor, vp_curline a, vp_curcol a)
           = updateCursorPosInEditor editor (vp_curline a) (vp_curcol a)).
Proof.
  intros Hwf Hargs Hlast pos r staged. subst r.
  rewrite list.Forall_forall in Hlast.
  pose proof (scan_batch_run batch st Hwf) as Hscan. fold staged in Hscan.
  assert (Hget : Map_get (vp_win a) staged = Some pos).
  { subst staged. rewrite Hargs, foldl_app. cbn [foldl].
    rewrite (staged_other_windows _ _ _ Hlast).
    unfold stage_viewport. apply Map_get_set_eq. }
  assert (Hnd : NoDup staged.*1).
  { apply staged_NoDup. apply NoDup_nil_2. }
  destruct (handleRedrawBatch_run batch st staged _ _ Hscan) as (_ & _ & _ & Hq).
  split; [rewrite Hscan; reflexivity|].
  split; [exact Hget|]. split; [|split; [exact Hq|]].
  - intros p Hin. apply (Map_get_elem_of _ _ _ Hnd) in Hin.
    rewrite Hget in Hin. injection Hin as <-. reflexivity.
  - intros editor Hed. split; [|reflexivity].
    rewrite Hq. apply list_elem_of_omap.
    exists (vp_win a, pos). split; [apply Map_get_Some, Hget|].
    unfold queued_for. cbn [fst snd]. rewrite Hed. reflexivity.
Qed.


(** *** ModeCursorStyleMap: [updateCursorStyle] *)

Lemma for_of_ext {A} (l : list A) (body body' : A -> Eff unit) st :
  (forall x st', body x st' = body' x st') ->
  for_of l body st = for_of l body' st.
Proof.
  intros Hext. revert st. induction l as [|x rest IH]; intros st; cbn [for_of].
  - reflexivity.
  - rewrite !run_bind, Hext.
    destruct (completion (body' x st)); [|reflexivity].
    cbv zeta. rewrite IH. reflexivity.
Qed.

Lemma with_cursorStyle_twice s ed :
  with_cursorStyle s (with_cursorStyle s ed) = with_cursorStyle s ed.
Proof. reflexivity. Qed.

(** Giving one style to a list of editors. *)
Lemma for_of_style_run s (l : list EditorRef) : forall st,
  completion (for_of l (fun r => update_editor r (with_cursorStyle s)) st) = Normal tt
  /\ trace (for_of l (fun r => update_editor r (with_cursorStyle s)) st) = []
  /\ cursorModes (final_state (for_of l (fun r => update_editor r (with_cursorStyle s)) st))
     = cursorModes st
  /\ forall r,
       editors (final_state (for_of l (fun r => update_editor r (with_cursorStyle s)) st)) r
       = if decide (r ∈ l) then with_cursorStyle s (editors st r) else editors st r.
Proof.
  induction l as [|x rest IH]; intros st; cbn [for_of].
  - split; [reflexivity|]. split; [reflexivity|]. split; [reflexivity|].
    intros r. destruct (decide (r ∈ [])) as [Hin|]; [|reflexivity].
    apply elem_of_nil in Hin. contradiction.
  - rewrite bind_update_editor.
    destruct (IH (mkState (cursorModes st)
                    (<[x := with_cursorStyle s (editors st x)]> (editors st))))
      as (Hc & Ht & Hm & He).
    split; [exact Hc|]. split; [exact Ht|]. split; [exact Hm|].
    intros r. rewrite He. cbn [editors].
    destruct (decide (x = r)) as [<- | Hne].
    + rewrite fn_lookup_insert.
      destruct (decide (x ∈ rest)); destruct (decide (x ∈ x :: rest)) as [|Hnot];
        try reflexivity.
      exfalso. apply Hnot. apply elem_of_cons. auto.
      exfalso. apply Hnot. apply elem_of_cons. auto.
    + rewrite fn_lookup_insert_ne by assumption.
      destruct (decide (r ∈ rest)) as [Hin | Hnin];
        destruct (decide (r ∈ x :: rest)) as [Hin' | Hnin']; try reflexivity.
      * exfalso. apply Hnin'. apply elem_of_cons. auto.
      * exfalso. apply elem_of_cons in Hin' as [-> | Hin']; [apply Hne; reflexivity | auto].
Qed.

Lemma updateCursorStyle_body shape editor st :
  (if String.eqb shape "block" then update_editor editor (with_cursorStyle Block)
   else if String.eqb shape "horizontal"
        then update_editor editor (with_cursorStyle Underline)
        else update_editor editor (with_cursorStyle Line)) st
  = update_editor editor (with_cursorStyle (style_of_shape shape)) st.
Proof.
  unfold style_of_shape.
  destruct (String.eqb shape "block"); [reflexivity|].
  destruct (String.eqb shape "horizontal"); reflexivity.
Qed.

Lemma updateCursorStyle_run name conf st :
  cursorModes st !! name = Some conf ->
  completion (updateCursorStyle (Some name) st) = Normal tt
  /\ trace (updateCursorStyle (Some name) st) = []
  /\ cursorModes (final_state (updateCursorStyle (Some name) st)) = cursorModes st
  /\ forall ed,
       editors (final_state (updateCursorStyle (Some name) st)) ed
       = if decide (ed ∈ visibleTextEditors window)
         then with_cursorStyle (style_of_shape (cursorShape conf)) (editors st ed)
         else editors st ed.
Proof.
  intros Hconf. unfold updateCursorStyle.
  rewrite bind_get_state. cbn [mbind option_bind]. rewrite Hconf.
  rewrite (for_of_ext _ _ (fun ed => update_editor ed
                             (with_cursorStyle (style_of_shape (cursorShape conf)))))
    by (intros; apply updateCursorStyle_body).
  apply for_of_style_run.
Qed.

(** X2. A mode with a recorded style: [updateCursorStyle] gives every visible
    editor the style of the recorded shape (block, underline for
    ["horizontal"], line for anything else) and touches nothing else: the
    other fields of those editors, the editors that are not visible and the
    mode map are as before, and nothing is called. *)
Theorem updateCursorStyle_known (name : string) (conf : CursorInfo) (st : State) :
  cursorModes st !! name = Some conf ->
  let r := updateCursorStyle (Some name) st in
  completion r = Normal tt
  /\ trace r = []
  /\ cursorModes (final_state r) = cursorModes st
  /\ (forall ed, ed ∈ visibleTextEditors window ->
        editors (final_state r) ed
        = with_cursorStyle (style_of_shape (cursorShape conf)) (editors st ed))
  /\ (forall ed, ed ∉ visibleTextEditors window ->
        editors (final_state r) ed = editors st ed).
Proof.
  intros Hconf r. subst r.
  destruct (updateCursorStyle_run name conf st Hconf) as (Hc & Ht & Hm & He).
  split; [exact Hc|]. split; [exact Ht|]. split; [exact Hm|]. split.
  - intros ed Hin. rewrite He. destruct (decide _); [reflexivity | contradiction].
  - intros ed Hnin. rewrite He. destruct (decide _); [contradiction | reflexivity].
Qed.

(** *** Mode definitions *)

Lemma record_modes_run modes : forall st,
  let body := fun mode : ModeInfo =>
    if negb (truthy_string (mode_name mode)) || negb (truthy_string (mode_cursor_shape mode))
    then mret tt
    else set_cursorMode (default "" (mode_name mode))
                        (mkCursorInfo (default "" (mode_cursor_shape mode))) in
  for_of modes body st
  = (Normal tt, mkState (foldl record_mode (cursorModes st) modes) (editors st), []).
Proof.
  induction modes as [|mode rest IH]; intros st body; cbn [for_of foldl].
  - destruct st. reflexivity.
  - rewrite run_bind. subst body. cbv beta.
    unfold record_mode at 2, mode_recorded.
    destruct (truthy_string (mode_name mode)), (truthy_string (mode_cursor_shape mode));
      cbn [negb orb andb completion final_state trace fst snd mret Eff_ret set_cursorMode];
      rewrite ?bind_get_state; cbn [put_state completion final_state trace fst snd];
      cbv zeta; rewrite IH; reflexivity.
Qed.

Lemma record_mode_other name m mode :
  ~ records name mode -> record_mode m mode !! name = m !! name.
Proof.
  intros Hnot. unfold record_mode. destruct (mode_recorded mode) eqn:Hrec; [|reflexivity].
  apply lookup_insert_ne. intros Heq. apply Hnot. split; [exact Hrec|].
  unfold mode_recorded, truthy_string in Hrec.
  destruct (mode_name mode) as [n|]; [|discriminate].
  cbn in Heq. subst n. reflexivity.
Qed.

Lemma record_modes_other name modes : forall m,
  Forall (fun mode => ~ records name mode) modes ->
  foldl record_mode m modes !! name = m !! name.
Proof.
  induction modes as [|mode rest IH]; intros m Hall; cbn [foldl]; [reflexivity|].
  apply list.Forall_cons in Hall as [Hmode Hrest].
  rewrite IH by exact Hrest. apply record_mode_other, Hmode.
Qed.

Lemma record_modes_last name shape pre mode post m :
  records name mode ->
  mode_cursor_shape mode = Some shape ->
  Forall (fun later => ~ records name later) post ->
  foldl record_mode m (pre ++ mode :: post) !! name = Some (mkCursorInfo shape).
Proof.
  intros [Hrec Hname] Hshape Hpost. rewrite foldl_app. cbn [foldl].
  rewrite record_modes_other by exact Hpost.
  unfold record_mode. rewrite Hrec, Hname, Hshape. cbn [default].
  apply lookup_insert_eq.
Qed.

(** The state after [handleRedrawBatch] is the state after its first loop. *)
Lemma handleRedrawBatch_state batch st :
  final_state (handleRedrawBatch batch st) = final_state (scan_batch batch [] st)
  /\ same_outcome (completion (handleRedrawBatch batch st))
                  (completion (scan_batch batch [] st)).
Proof.
  unfold handleRedrawBatch. rewrite run_bind.
  destruct (completion (scan_batch batch [] st)) as [staged | err]; [|split; reflexivity].
  destruct (dispatch_loop_run staged (final_state (scan_batch batch [] st)))
    as (Hc & Hs & _).
  cbv zeta. cbn [completion final_state fst snd]. split.
  - exact Hs.
  - fold (completion (for_of staged dispatch_update (final_state (scan_batch batch [] st)))).
    rewrite Hc. exact I.
Qed.

Lemma mode_info_set_run enabled modes others st :
  handleRedrawBatch [mode_info_set ((enabled, modes) :: others)] st
  = (Normal tt, mkState (foldl record_mode (cursorModes st) modes) (editors st), []).
Proof.
  unfold handleRedrawBatch. cbn [scan_batch scan_event head].
  rewrite !run_bind, record_modes_run. reflexivity.
Qed.

(** X3. The latest definition of a mode wins.  After a [mode_info_set] event
    whose last recorded mode called [name] has the shape [shape], the mode map
    gives [name] that shape, whatever it held before and whatever the event
    defines earlier; the editors are untouched and nothing is called. *)
Theorem mode_info_set_latest_definition
    (enabled : bool) (pre post : list ModeInfo) (mode : ModeInfo)
    (others : list (bool * list ModeInfo)) (name shape : string) (st : State) :
  records name mode ->
  mode_cursor_shape mode = Some shape ->
  Forall (fun later => ~ records name later) post ->
  let r := handleRedrawBatch [mode_info_set ((enabled, pre ++ mode :: post) :: others)] st in
  completion r = Normal tt
  /\ cursorModes (final_state r) !! name = Some (mkCursorInfo shape)
  /\ editors (final_state r) = editors st
  /\ trace r = [].
Proof.
  intros Hrec Hshape Hpost r. subst r. rewrite mode_info_set_run.
  split; [reflexivity|]. split; [|split; reflexivity].
  cbn [final_state fst snd cursorModes].
  apply (record_modes_last name shape pre mode post _ Hrec Hshape Hpost).
Qed.

(** X4. Modes that a [mode_info_set] event does not record keep what the map
    held for them: an entry without a name or without a shape (absent or
    empty) is skipped, and so is every tuple of the event after the first. *)
Theorem mode_info_set_skips
    (enabled : bool) (modes : list ModeInfo)
    (others : list (bool * list ModeInfo)) (name : string) (st : State) :
  Forall (fun mode => ~ records name mode) modes ->
  let r := handleRedrawBatch [mode_info_set ((enabled, modes) :: others)] st in
  completion r = Normal tt
  /\ cursorModes (final_state r) !! name = cursorModes st !! name.
Proof.
  intros Hall r. subst r. rewrite mode_info_set_run.
  split; [reflexivity|]. cbn [final_state fst snd cursorModes].
  apply record_modes_other, Hall.
Qed.


(** *** Batches *)

(** What the first loop does to the state does not depend on what is staged. *)
Lemma scan_event_staging_free ev m m' st :
  final_state (scan_event ev m st) = final_state (scan_event ev m' st)
  /\ same_outcome (completion (scan_event ev m st)) (completion (scan_event ev m' st)).
Proof.
  destruct ev as [args | args | args | name]; cbn [scan_event].
  - split; [reflexivity | exact I].
  - destruct (head args) as [[enabled modes]|]; [|split; reflexivity].
    rewrite !run_bind, record_modes_run. split; [reflexivity | exact I].
  - rewrite !run_bind, updateCursorStyle_completes. split; [reflexivity | exact I].
  - split; [reflexivity | exact I].
Qed.

Lemma scan_batch_staging_free batch : forall m m' st,
  final_state (scan_batch batch m st) = final_state (scan_batch batch m' st)
  /\ same_outcome (completion (scan_batch batch m st)) (completion (scan_batch batch m' st)).
Proof.
  induction batch as [|ev rest IH]; intros m m' st; cbn [scan_batch].
  - split; [reflexivity | exact I].
  - rewrite !run_bind.
    destruct (scan_event_staging_free ev m m' st) as [Hs Ho].
    destruct (completion (scan_event ev m st)) as [a | err],
             (completion (scan_event ev m' st)) as [a' | err'];
      cbn in Ho; try contradiction.
    + cbv zeta. cbn [completion final_state fst snd]. rewrite Hs.
      apply (IH a a' (final_state (scan_event ev m' st))).
    + subst err'. rewrite Hs. split; reflexivity.
Qed.

Lemma same_outcome_trans {A B C} (c1 : Completion A) (c2 : Completion B) (c3 : Completion C) :
  same_outcome c1 c2 -> same_outcome c2 c3 -> same_outcome c1 c3.
Proof.
  destruct c1, c2, c3; cbn; try tauto; congruence.
Qed.

Lemma same_outcome_sym {A B} (c1 : Completion A) (c2 : Completion B) :
  same_outcome c1 c2 -> same_outcome c2 c1.
Proof.
  destruct c1, c2; cbn; try tauto; congruence.
Qed.

Lemma scan_batch_app first second : forall m m' st,
  Forall event_well_formed first ->
  final_state (scan_batch (first ++ second) m st)
  = final_state (scan_batch second m' (final_state (scan_batch first m st)))
  /\ same_outcome (completion (scan_batch (first ++ second) m st))
                  (completion (scan_batch second m' (final_state (scan_batch first m st)))).
Proof.
  induction first as [|ev rest IH]; intros m m' st Hwf.
  - cbn [app scan_batch]. apply scan_batch_staging_free.
  - apply list.Forall_cons in Hwf as [Hev Hrest].
    cbn [app scan_batch]. rewrite !run_bind, (scan_event_completes ev m st Hev).
    cbv zeta. cbn [completion final_state fst snd].
    apply (IH _ m' _ Hrest).
Qed.

Lemma handleRedrawBatch_app first second st :
  Forall event_well_formed first ->
  final_state (handleRedrawBatch (first ++ second) st)
  = final_state (handleRedrawBatch second (final_state (handleRedrawBatch first st)))
  /\ same_outcome
       (completion (handleRedrawBatch (first ++ second) st))
       (completion (handleRedrawBatch second (final_state (handleRedrawBatch first st)))).
Proof.
  intros Hwf.
  destruct (handleRedrawBatch_state (first ++ second) st) as [Hs Ho].
  destruct (handleRedrawBatch_state first st) as [Hs1 _].
  destruct (handleRedrawBatch_state second (final_state (handleRedrawBatch first st)))
    as [Hs2 Ho2].
  destruct (scan_batch_app first second [] [] st Hwf) as [Hsa Hoa].
  rewrite Hs, Hs2, Hs1. split; [exact Hsa|].
  eapply same_outcome_trans; [exact Ho|].
  eapply same_outcome_trans; [exact Hoa|].
  apply same_outcome_sym. rewrite Hs1 in Ho2. exact Ho2.
Qed.

(** X5. Splitting a batch.  The mode map and the editors end up the same,
    and the processing completes the same way, whether a batch is handled
    whole or in two parts one after the other (the first part made of events
    as the engine sends them). *)
Theorem handleRedrawBatch_split (first second : list RedrawEvent) (st : State) :
  Forall event_well_formed first ->
  final_state (handleRedrawBatch (first ++ second) st)
  = final_state (handleRedrawBatch second (final_state (handleRedrawBatch first st)))
  /\ same_outcome
       (completion (handleRedrawBatch (first ++ second) st))
       (completion (handleRedrawBatch second (final_state (handleRedrawBatch first st)))).
Proof. apply handleRedrawBatch_app. Qed.

Lemma mode_change_run name idx others st :
  final_state (handleRedrawBatch [mode_change ((name, idx) :: others)] st)
  = final_state (updateCursorStyle (Some name) st)
  /\ completion (handleRedrawBatch [mode_change ((name, idx) :: others)] st) = Normal tt.
Proof.
  destruct (handleRedrawBatch_state [mode_change ((name, idx) :: others)] st) as [Hs Ho].
  rewrite Hs. cbn [scan_batch scan_event head fmap option_fmap option_map fst] in *.
  rewrite !run_bind in *. rewrite updateCursorStyle_completes in *.
  cbv zeta in *. cbn [completion final_state fst snd mret Eff_ret] in *.
  split; [reflexivity|].
  destruct (completion (handleRedrawBatch _ st)) as [[]|]; [reflexivity | contradiction].
Qed.

(** X6. A definition followed by a change of mode.  When a batch defines the
    style of a mode and then changes to that mode, every visible editor gets
    the style of the latest recorded shape; its document, selections, visible
    ranges and view column stay, and the other editors are untouched. *)
Theorem handleRedrawBatch_define_then_change
    (enabled : bool) (pre post : list ModeInfo) (mode : ModeInfo)
    (others : list (bool * list ModeInfo)) (name shape : string)
    (idx : Z) (others' : list (string * Z)) (st : State) :
  records name mode ->
  mode_cursor_shape mode = Some shape ->
  Forall (fun later => ~ records name later) post ->
  let r := handleRedrawBatch
             [ mode_info_set ((enabled, pre ++ mode :: post) :: others);
               mode_change ((name, idx) :: others') ] st in
  completion r = Normal tt
  /\ (forall ed, ed ∈ visibleTextEditors window ->
        editors (final_state r) ed = with_cursorStyle (style_of_shape shape) (editors st ed))
  /\ (forall ed, ed ∉ visibleTextEditors window ->
        editors (final_state r) ed = editors st ed).
Proof.
  intros Hrec Hshape Hpost r. subst r.
  pose proof (handleRedrawBatch_app
                [mode_info_set ((enabled, pre ++ mode :: post) :: others)]
                [mode_change ((name, idx) :: others')] st) as Hsplit.
  cbn [app] in Hsplit.
  destruct Hsplit as [Hs Ho]; [repeat constructor|].
  rewrite mode_info_set_run in Hs, Ho.
  cbn [final_state fst snd] in Hs, Ho.
  pose proof (record_modes_last name shape pre mode post (cursorModes st)
                Hrec Hshape Hpost) as Hmode.
  destruct (mode_change_run name idx others'
              (mkState (foldl record_mode (cursorModes st) (pre ++ mode :: post))
                       (editors st)))
    as [Hs2 Hc2].
  destruct (updateCursorStyle_run name (mkCursorInfo shape)
              (mkState (foldl record_mode (cursorModes st) (pre ++ mode :: post))
                       (editors st)) Hmode)
    as (_ & _ & _ & He).
  rewrite Hc2 in Ho. rewrite Hs, Hs2. split.
  - destruct (completion (handleRedrawBatch _ st)) as [[]|]; [reflexivity | contradiction].
  - split.
    + intros ed Hin. rewrite He. destruct (decide _); [reflexivity | contradiction].
    + intros ed Hnin. rewrite He. destruct (decide _); [contradiction | reflexivity].
Qed.


(** A batch that defines no mode and changes to no mode with a style. *)
Lemma scan_batch_without_style batch st : forall m,
  Forall (event_without_style st) batch ->
  final_state (scan_batch batch m st) = st
  /\ exists staged, completion (scan_batch batch m st) = Normal staged.
Proof.
  induction batch as [|ev rest IH]; intros m Hall; cbn [scan_batch].
  - split; [reflexivity | eexists; reflexivity].
  - apply list.Forall_cons in Hall as [Hev Hrest]. rewrite run_bind.
    assert (Hrun : exists m', scan_event ev m st = (Normal m', st, [])).
    { destruct ev as [args | args | args | name]; cbn [scan_event event_without_style] in *.
      - eexists; reflexivity.
      - contradiction.
      - exists m. rewrite run_bind. unfold updateCursorStyle.
        rewrite bind_get_state, Hev. reflexivity.
      - eexists; reflexivity. }
    destruct Hrun as [m' Hrun]. rewrite Hrun.
    cbv zeta. cbn [completion final_state fst snd].
    apply (IH m' Hrest).
Qed.

(** X1. A batch that changes nothing.  A batch without [mode_info_set] whose
    [mode_change] events name no mode (no argument) or a mode that has no style
    yet is processed to its end and leaves the mode map and every editor as
    they were: a mode seen before its definition causes no visual change. *)
Theorem handleRedrawBatch_without_style (batch : list RedrawEvent) (st : State) :
  Forall (event_without_style st) batch ->
  completion (handleRedrawBatch batch st) = Normal tt
  /\ final_state (handleRedrawBatch batch st) = st.
Proof.
  intros Hall.
  destruct (scan_batch_without_style batch st [] Hall) as [Hs [staged Hc]].
  destruct (handleRedrawBatch_state batch st) as [Hs' Ho].
  rewrite Hs', Hs. split; [|reflexivity].
  rewrite Hc in Ho.
  destruct (completion (handleRedrawBatch batch st)) as [[]|]; [reflexivity | contradiction].
Qed.

(** X7. An event [mode_info_set] without its argument tuple.  The batch is
    abandoned there with a [TypeError]: the events before it have had their
    effect on the mode map and on the styles, but no window of the batch is
    looked up, warned about or queued, not even those staged before the
    event, and nothing is logged. *)
Theorem handleRedrawBatch_missing_modes
    (pre post : list RedrawEvent) (st : State) :
  Forall event_well_formed pre ->
  let r := handleRedrawBatch (pre ++ mode_info_set [] :: post) st in
  completion r = Throw (TypeError "modes is not iterable")
  /\ trace r = []
  /\ final_state r = final_state (handleRedrawBatch pre st).
Proof.
  intros Hwf r. subst r.
  destruct (handleRedrawBatch_app pre (mode_info_set [] :: post) st Hwf) as [Hs Ho].
  assert (Hrun : forall st1,
            handleRedrawBatch (mode_info_set [] :: post) st1
            = (Throw (TypeError "modes is not iterable"), st1, [])).
  { intros st1. unfold handleRedrawBatch. cbn [scan_batch scan_event head].
    rewrite !run_bind. reflexivity. }
  rewrite Hrun in Hs, Ho. cbn [completion final_state fst snd] in Hs, Ho.
  split; [|split; [|exact Hs]].
  - destruct (completion (handleRedrawBatch _ st)) as [|err]; [contradiction|].
    cbn in Ho. subst err. reflexivity.
  - unfold handleRedrawBatch. rewrite run_bind.
    pose proof (silent_scan_batch (pre ++ mode_info_set [] :: post) [] st) as Hsil.
    destruct (scan_batch_app pre (mode_info_set [] :: post) [] [] st Hwf) as [_ Hos].
    cbn [scan_batch scan_event head] in Hos. rewrite run_bind in Hos.
    cbn [completion fst snd throw] in Hos.
    destruct (completion (scan_batch (pre ++ mode_info_set [] :: post) [] st));
      [contradiction|].
    exact Hsil.
Qed.


(** *** What [handleRedrawBatch] leaves alone *)

Lemma same_view_refl ed : same_view ed ed.
Proof. repeat split. Qed.

Lemma same_view_trans ed1 ed2 ed3 :
  same_view ed1 ed2 -> same_view ed2 ed3 -> same_view ed1 ed3.
Proof.
  intros (Hd & Hs & Hv & Hc) (Hd' & Hs' & Hv' & Hc').
  repeat split; congruence.
Qed.

Lemma keeps_views_ret {A} (a : A) : keeps_views (mret a).
Proof. intros st r. apply same_view_refl. Qed.

Lemma keeps_views_throw {A} err : keeps_views (@throw A err).
Proof. intros st r. apply same_view_refl. Qed.

Lemma keeps_views_emit e : keeps_views (emit e).
Proof. intros st r. apply same_view_refl. Qed.

Lemma keeps_views_get_state : keeps_views get_state.
Proof. intros st r. apply same_view_refl. Qed.

Lemma keeps_views_deref ed : keeps_views (deref ed).
Proof. intros st r. apply same_view_refl. Qed.

Lemma keeps_views_set_cursorMode name info : keeps_views (set_cursorMode name info).
Proof. intros st r. apply same_view_refl. Qed.

Lemma keeps_views_style ed s : keeps_views (update_editor ed (with_cursorStyle s)).
Proof.
  intros st r.
  change (same_view (editors st r)
            ((<[ed := with_cursorStyle s (editors st ed)]> (editors st)) r)).
  destruct (decide (ed = r)) as [<- | Hne].
  - rewrite fn_lookup_insert. repeat split.
  - rewrite fn_lookup_insert_ne by assumption. apply same_view_refl.
Qed.

Lemma keeps_views_bind {A B} (m : Eff A) (k : A -> Eff B) :
  keeps_views m -> (forall a, keeps_views (k a)) -> keeps_views (m ≫= k).
Proof.
  intros Hm Hk st r. rewrite run_bind.
  destruct (completion (m st)) as [a | err].
  - cbn. eapply same_view_trans; [apply Hm | apply Hk].
  - apply Hm.
Qed.

Lemma keeps_views_for_of {A} (l : list A) (body : A -> Eff unit) :
  (forall x, keeps_views (body x)) -> keeps_views (for_of l body).
Proof.
  intros Hbody. induction l as [|x rest IH]; cbn [for_of].
  - apply keeps_views_ret.
  - apply keeps_views_bind; [apply Hbody | intros _; exact IH].
Qed.

Create HintDb views_db.
Hint Resolve keeps_views_ret keeps_views_throw keeps_views_emit keeps_views_get_state
     keeps_views_deref keeps_views_set_cursorMode keeps_views_style : views_db.

Ltac views_step :=
  first
    [ solve [auto with views_db]
    | apply keeps_views_bind; [|intro]
    | apply keeps_views_for_of; intro
    | match goal with
      | |- keeps_views (if ?c then _ else _) => destruct c
      | |- keeps_views (match ?x with _ => _ end) => destruct x
      end ].
Ltac views_all := cbv zeta; repeat views_step.

Lemma keeps_views_scan_event ev m : keeps_views (scan_event ev m).
Proof. destruct ev; cbn [scan_event]; views_all. Qed.

Lemma keeps_views_scan_batch batch : forall m, keeps_views (scan_batch batch m).
Proof.
  induction batch as [|ev rest IH]; intros m; cbn [scan_batch].
  - apply keeps_views_ret.
  - apply keeps_views_bind; [apply keeps_views_scan_event | intros m'; apply IH].
Qed.

Lemma dispatch_loop_quiet staged st :
  rpc_batches (trace (for_of staged dispatch_update st)) = []
  /\ reveals (trace (for_of staged dispatch_update st)) = []
  /\ lookups (trace (for_of staged dispatch_update st)) = staged.*1.
Proof.
  induction staged as [|entry rest (IHr & IHv & IHl)]; cbn [for_of].
  - repeat split.
  - rewrite run_bind, dispatch_update_run.
    cbv zeta. cbn [completion final_state trace fst snd].
    fold (trace (for_of rest dispatch_update st)).
    unfold rpc_batches, reveals, lookups in *.
    rewrite !omap_app, IHr, IHv, IHl.
    destruct (getEditorFromWinId bufferManager entry.1); repeat split.
Qed.

(** X8. [handleRedrawBatch] moves no cursor and sends nothing.  Whatever the
    batch, it sends no RPC batch and asks for no reveal, and it leaves the
    document, the selections, the visible ranges and the view column of every
    editor as they were: only cursor styles can change, and cursor positions
    are applied later, by the queued updates. *)
Theorem handleRedrawBatch_defers (batch : list RedrawEvent) (st : State) :
  let r := handleRedrawBatch batch st in
  rpc_batches (trace r) = []
  /\ reveals (trace r) = []
  /\ forall ed, same_view (editors st ed) (editors (final_state r) ed).
Proof.
  intros r. subst r.
  destruct (handleRedrawBatch_state batch st) as [Hs _].
  split; [|split].
  - unfold handleRedrawBatch. rewrite run_bind, silent_scan_batch.
    destruct (completion (scan_batch batch [] st)) as [staged|]; [|reflexivity].
    apply dispatch_loop_quiet.
  - unfold handleRedrawBatch. rewrite run_bind, silent_scan_batch.
    destruct (completion (scan_batch batch [] st)) as [staged|]; [|reflexivity].
    apply dispatch_loop_quiet.
  - intros ed. rewrite Hs. apply keeps_views_scan_batch.
Qed.

Lemma Map_set_keeps_keys {V} k (v : V) m x :
  x = k \/ x ∈ m.*1 -> x ∈ (Map_set k v m).*1.
Proof.
  induction m as [|[k' v'] rest IH]; cbn.
  - intros [-> | H]; [apply elem_of_cons; auto | apply elem_of_nil in H; contradiction].
  - destruct (k =? k') eqn:Hk; cbn.
    + apply Z.eqb_eq in Hk. subst k'. intros [-> | H]; [apply elem_of_cons; auto | exact H].
    + intros [-> | H].
      * apply elem_of_cons. right. apply IH. auto.
      * apply elem_of_cons in H as [-> | H]; apply elem_of_cons; [auto|].
        right. apply IH. auto.
Qed.

Lemma staged_windows args : forall m w,
  w ∈ (foldl stage_viewport m args).*1 <-> w ∈ m.*1 \/ w ∈ vp_win <$> args.
Proof.
  induction args as [|a rest IH]; intros m w; cbn [foldl fmap list_fmap].
  - split; [auto | intros [H | H]; [exact H | apply elem_of_nil in H; contradiction]].
  - rewrite IH. unfold stage_viewport. split.
    + intros [H | H].
      * apply Map_set_keys in H as [-> | H]; [right; apply elem_of_cons; auto | auto].
      * right. apply elem_of_cons. auto.
    + intros [H | H].
      * left. apply Map_set_keeps_keys. right. exact H.
      * apply elem_of_cons in H as [-> | H]; [|auto].
        left. apply Map_set_keeps_keys. left. reflexivity.
Qed.

(** X9. Each window of a batch is resolved once.  On a batch of events as the
    engine sends them, [getEditorFromWinId] is called for exactly the windows
    named by the viewport tuples of the batch, once each however many tuples
    name them. *)
Theorem handleRedrawBatch_resolves_once (batch : list RedrawEvent) (st : State) :
  Forall event_well_formed batch ->
  let r := handleRedrawBatch batch st in
  NoDup (lookups (trace r))
  /\ forall winId, winId ∈ lookups (trace r) <-> winId ∈ vp_win <$> viewport_args batch.
Proof.
  intros Hwf r. subst r.
  pose proof (scan_batch_run batch st Hwf) as Hscan.
  unfold handleRedrawBatch. rewrite run_bind, Hscan.
  cbv zeta. cbn [completion final_state trace fst snd app].
  fold (trace (for_of (foldl stage_viewport [] (viewport_args batch)) dispatch_update
                      (final_state (scan_batch batch [] st)))).
  destruct (dispatch_loop_quiet (foldl stage_viewport [] (viewport_args batch))
              (final_state (scan_batch batch [] st))) as (_ & _ & ->).
  split.
  - apply staged_NoDup. apply NoDup_nil_2.
  - intros winId. rewrite staged_windows. split; [|auto].
    intros [H | H]; [apply elem_of_nil in H; contradiction | exact H].
Qed.


(** *** More on [onSelectionChanged] *)

Lemma stateless_ret {A} (a : A) : stateless (mret a).
Proof. intros st. reflexivity. Qed.

Lemma stateless_throw {A} err : stateless (@throw A err).
Proof. intros st. reflexivity. Qed.

Lemma stateless_emit e : stateless (emit e).
Proof. intros st. reflexivity. Qed.

Lemma stateless_deref ed : stateless (deref ed).
Proof. intros st. reflexivity. Qed.

Lemma stateless_bind {A B} (m : Eff A) (k : A -> Eff B) :
  stateless m -> (forall a, stateless (k a)) -> stateless (m ≫= k).
Proof.
  intros Hm Hk st. rewrite run_bind.
  destruct (completion (m st)) as [a | err].
  - cbn. rewrite Hm. apply Hk.
  - apply Hm.
Qed.

Create HintDb stateless_db.
Hint Resolve stateless_ret stateless_throw stateless_emit stateless_deref : stateless_db.

Ltac stateless_step :=
  first
    [ solve [auto with stateless_db]
    | apply stateless_bind; [|intro]
    | match goal with
      | |- stateless (if ?c then _ else _) => destruct c
      | |- stateless (match ?x with _ => _ end) => destruct x
      end ].
Ltac stateless_all := cbv zeta; repeat stateless_step.

Lemma stateless_onSelectionChanged e : stateless (onSelectionChanged e).
Proof. unfold onSelectionChanged. stateless_all. Qed.

Lemma stateless_dispatch_loop staged : stateless (for_of staged dispatch_update).
Proof. intros st. apply dispatch_loop_run. Qed.

(** The handler past its guard: the two waits, then the rest. *)
Ltac at_most_one := first [exact (le_n 1) | exact (le_S 0 0 (le_n 0))].

Lemma onSelectionChanged_entry e st :
  isInsertMode modeManager = false ->
  exists rest,
    trace (onSelectionChanged e st)
    = [ logger_debug msg_SelectionChanged;
        logger_debug msg_WaitingLayoutCompletion;
        waitForLayoutSync;
        logger_debug msg_WaitingDocumentChangeCompletion;
        getDocumentChangeCompletionLock (document (editors st (textEditor e)));
        call_getWinIdForTextEditor (textEditor e) ] ++ rest
    /\ waits rest = []
    /\ (length (rpc_batches rest) <= 1)%nat.
Proof.
  intros Hins. unfold onSelectionChanged. rewrite Hins. eff_run.
  match goal with
  | |- exists rest, trace (cons_trace _ (cons_trace _ (cons_trace _ (cons_trace _
         (cons_trace _ (cons_trace _ ?X)))))) = _ /\ _ /\ _ =>
      exists (trace X)
  end.
  split; [reflexivity|].
  destruct (ev_selections e) as [|s0 others]; cbn [head]; eff_run.
  { split; [reflexivity | at_most_one]. }
  cbv zeta.
  destruct (negb (truthy_number _)); [split; [reflexivity | at_most_one]|].
  destruct (_ || negb (isEqual _ _)).
  - destruct (negb (is_Mouse (kind e)) || negb (mouseSelectionEnabled settings));
      [split; [reflexivity | at_most_one]|].
    eff_run.
    destruct (negb (isVisualMode modeManager) && _); eff_run;
      destruct (list.last (s0 :: others)); eff_run;
      (split; [reflexivity | at_most_one]).
  - eff_run. split; [reflexivity | at_most_one].
Qed.

(** X10. The handler only talks to the engine.  Whatever the event, the
    mode and the bindings, [onSelectionChanged] leaves the state as it was (it
    writes to no editor and not to the mode map) and sends at most one RPC
    batch. *)
Theorem onSelectionChanged_reads_only
    (e : TextEditorSelectionChangeEvent) (st : State) :
  final_state (onSelectionChanged e st) = st
  /\ (length (rpc_batches (trace (onSelectionChanged e st))) <= 1)%nat.
Proof.
  split; [apply stateless_onSelectionChanged|].
  destruct (isInsertMode modeManager) eqn:Hins.
  - unfold onSelectionChanged. rewrite Hins. at_most_one.
  - destruct (onSelectionChanged_entry e st Hins) as (rest & -> & _ & Hlen).
    exact Hlen.
Qed.



(** The collapsed branch of the handler. *)
Lemma onSelectionChanged_collapsed_path e st s0 winId :
  isInsertMode modeManager = false ->
  getWinIdForTextEditor bufferManager (textEditor e) = Some winId ->
  winId <> 0 ->
  ev_selections e = [s0] ->
  isEqual (active s0) (anchor s0) = true ->
  let createJumpEntry :=
    unspecified_or_Command (kind e)
    && same_editor (textEditor e) (activeTextEditor window) in
  completion (onSelectionChanged e st) = Normal tt
  /\ rpc_batches (trace (onSelectionChanged e st))
     = [ ("nvim_win_set_cursor",
          [VNum winId; VPos (getNeovimCursorPosFromEditor (editors st (textEditor e)))])
         :: (if createJumpEntry
             then [("nvim_call_function",
                    [VStr "VSCodeStoreJumpForWin"; VArr [VNum winId]])]
             else []) ].
Proof.
  intros Hins Hwin Hnz Hs Hcol createJumpEntry. subst createJumpEntry.
  unfold onSelectionChanged. rewrite Hins, Hwin, Hs.
  cbn [head]. eff_run. cbv zeta. cbn [default]. unfold id.
  apply Z.eqb_neq in Hnz.
  unfold truthy_number. rewrite Hnz, Hcol. cbn [length Z.of_nat negb orb].
  change (1 <? Z.pos (Pos.of_succ_nat 0)) with false. cbn [orb]. eff_run.
  split; reflexivity.
Qed.

(** X12. A plain cursor move records no jump.  For a change to a single
    collapsed selection (engine not in insert mode, editor bound to a window)
    that comes from the keyboard or the mouse, or concerns an editor that is
    not the active one, the one batch sent holds the cursor move alone. *)
Theorem onSelectionChanged_collapsed_without_jump
    (e : TextEditorSelectionChangeEvent) (st : State) (s0 : Selection) (winId : Z) :
  isInsertMode modeManager = false ->
  getWinIdForTextEditor bufferManager (textEditor e) = Some winId ->
  winId <> 0 ->
  ev_selections e = [s0] ->
  isEqual (active s0) (anchor s0) = true ->
  unspecified_or_Command (kind e) = false
  \/ activeTextEditor window <> Some (textEditor e) ->
  rpc_batches (trace (onSelectionChanged e st))
  = [[("nvim_win_set_cursor",
       [VNum winId; VPos (getNeovimCursorPosFromEditor (editors st (textEditor e)))])]].
Proof.
  intros Hins Hwin Hnz Hs Hcol Hno.
  destruct (onSelectionChanged_collapsed_path e st s0 winId Hins Hwin Hnz Hs Hcol)
    as [_ ->].
  assert (Hfalse : unspecified_or_Command (kind e)
                   && same_editor (textEditor e) (activeTextEditor window) = false).
  { destruct Hno as [-> | Hother]; [reflexivity|].
    apply andb_false_iff. right. unfold same_editor.
    destruct (activeTextEditor window) as [r|]; [|reflexivity].
    apply Nat.eqb_neq. intros Heq. apply Hother. rewrite Heq. reflexivity. }
  rewrite Hfalse. reflexivity.
Qed.

(** X13. Extending a selection that is under way.  On the mouse path, when
    the engine is already in visual mode, no press and no keystroke are sent,
    with or without a grid: the one batch holds the cursor move to the
    translated active position of the last range. *)
Theorem onSelectionChanged_mouse_in_visual_mode
    (e : TextEditorSelectionChangeEvent) (st : State)
    (s0 sl : Selection) (winId : Z) :
  isInsertMode modeManager = false ->
  getWinIdForTextEditor bufferManager (textEditor e) = Some winId ->
  winId <> 0 ->
  head (ev_selections e) = Some s0 ->
  list.last (ev_selections e) = Some sl ->
  multi_or_non_collapsed (ev_selections e) ->
  kind e = Some Mouse ->
  mouseSelectionEnabled settings = true ->
  isVisualMode modeManager = true ->
  rpc_batches (trace (onSelectionChanged e st))
  = [[("nvim_win_set_cursor",
       [VNum winId;
        VPos (editorPositionToNeovimPosition (editors st (textEditor e)) (active sl))])]].
Proof.
  intros Hins Hwin Hnz Hhd Hlast Hsel Hk Hen Hvis.
  destruct (onSelectionChanged_mouse_path e st s0 sl winId
              Hins Hwin Hnz Hhd Hlast Hsel Hk Hen) as (_ & _ & ->).
  rewrite Hvis. reflexivity.
Qed.

(** X14. An editor without a window.  Outside insert mode, a change whose
    editor has no window id (none, or zero) is dropped after the two waits:
    the handler returns having looked up no grid and sent nothing. *)
Theorem onSelectionChanged_unbound_editor
    (e : TextEditorSelectionChangeEvent) (st : State) (s0 : Selection) :
  isInsertMode modeManager = false ->
  head (ev_selections e) = Some s0 ->
  truthy_number (getWinIdForTextEditor bufferManager (textEditor e)) = false ->
  onSelectionChanged e st
  = ( Normal tt, st,
      [ logger_debug msg_SelectionChanged;
        logger_debug msg_WaitingLayoutCompletion;
        waitForLayoutSync;
        logger_debug msg_WaitingDocumentChangeCompletion;
        getDocumentChangeCompletionLock (document (editors st (textEditor e)));
        call_getWinIdForTextEditor (textEditor e);
        logger_debug
          (msg_SelectionInfo (kind e)
             (getWinIdForTextEditor bufferManager (textEditor e)) (active s0)
             (1 <? Z.of_nat (length (ev_selections e)))) ] ).
Proof.
  intros Hins Hhd Hwin. unfold onSelectionChanged. rewrite Hins, Hhd.
  eff_run. cbv zeta. rewrite Hwin. reflexivity.
Qed.

(** *** More on [updateCursorPosInEditor] *)

(** X19. A negative line or character.  [new Selection] throws an
    illegal-argument error before anything is written: after the debug line
    the call ends, the state is as it was (the editor keeps its selections)
    and no reveal is asked for. *)
Theorem updateCursorPosInEditor_rejects
    (st : State) (editor : EditorRef) (newLine newCol : Z) :
  newLine < 0 \/ newCol < 0 ->
  exists what,
    updateCursorPosInEditor editor newLine newCol st
    = ( Throw (IllegalArgument what), st,
        [logger_debug
           (msg_UpdatingCursorInEditor (viewColumn (editors st editor)) newLine newCol)] ).
Proof.
  intros Hneg. unfold updateCursorPosInEditor. eff_run. cbv zeta.
  unfold Selection_new, Position_new.
  destruct (newLine <? 0) eqn:Hl.
  - eexists. reflexivity.
  - destruct (newCol <? 0) eqn:Hc.
    + eexists. reflexivity.
    + apply Z.ltb_ge in Hl, Hc. lia.
Qed.

(** X15. An editor without a visible range.  For a target position (line and
    column not negative) the selection is replaced first; reading the range
    then throws a [TypeError], and no reveal is asked for: the editor is left
    with the new selection and the old viewport. *)
Theorem updateCursorPosInEditor_without_range
    (st : State) (editor : EditorRef) (newLine newCol : Z) :
  0 <= newLine -> 0 <= newCol ->
  visibleRanges (editors st editor) = [] ->
  let r := updateCursorPosInEditor editor newLine newCol st in
  completion r = Throw (TypeError "visibleRange is undefined")
  /\ selections (editors (final_state r) editor)
     = [selection_of newLine newCol newLine newCol]
  /\ reveals (trace r) = [].
Proof.
  intros Hline Hcol Hvis r. subst r.
  rewrite (updateCursorPosInEditor_run_blind _ _ _ _ Hline Hcol Hvis).
  cbn [completion final_state trace fst snd editors]. rewrite fn_lookup_insert.
  repeat split.
Qed.

(** X16. A target beside the visible text.  When the target position (line
    and column not negative) is on a line of
    the visible range but outside the range by its character (before the start
    on the first line, after the end on the last one), none of the three
    branches applies: the selection is set and no reveal is asked for. *)
Theorem updateCursorPosInEditor_beside_range
    (st : State) (editor : EditorRef) (newLine newCol : Z)
    (visible : Range) (others : list Range) :
  0 <= newLine -> 0 <= newCol ->
  visibleRanges (editors st editor) = visible :: others ->
  point_within visible (mkPosition newLine newCol) = false ->
  line (start visible) <= newLine <= line (end_ visible) ->
  let r := updateCursorPosInEditor editor newLine newCol st in
  completion r = Normal tt
  /\ selections (editors (final_state r) editor)
     = [selection_of newLine newCol newLine newCol]
  /\ reveals (trace r) = [].
Proof.
  intros Hline Hcol Hvis Hout [Hlo Hhi] r. subst r.
  rewrite (updateCursorPosInEditor_run _ _ _ _ _ _ Hline Hcol Hvis).
  cbn [completion final_state trace fst snd editors]. rewrite fn_lookup_insert.
  split; [reflexivity|]. split; [reflexivity|].
  unfold reference_reveal. rewrite Hout. cbn [line].
  replace (newLine <? line (start visible)) with false
    by (symmetry; apply Z.ltb_ge; lia).
  replace (line (end_ visible) <? newLine) with false
    by (symmetry; apply Z.ltb_ge; lia).
  reflexivity.
Qed.

(** X17. [updateCursorPosInEditor] writes one field of one editor.  For a
    target position (line and column not negative), whether it returns or
    throws for want of a visible range, the editor keeps its document, visible
    ranges, view column and cursor style and loses whatever selections it had
    for the one collapsed selection; every other editor and the mode map are
    untouched; no RPC batch is sent. *)
Theorem updateCursorPosInEditor_frame
    (st : State) (editor : EditorRef) (newLine newCol : Z) :
  0 <= newLine -> 0 <= newCol ->
  let r := updateCursorPosInEditor editor newLine newCol st in
  editors (final_state r) editor
  = with_selections [selection_of newLine newCol newLine newCol] (editors st editor)
  /\ (forall other, other <> editor -> editors (final_state r) other = editors st other)
  /\ cursorModes (final_state r) = cursorModes st
  /\ rpc_batches (trace r) = [].
Proof.
  intros Hline Hcol r. subst r.
  rewrite updateCursorPosInEditor_state by assumption. cbn [editors cursorModes].
  split; [apply fn_lookup_insert|].
  split; [intros other Hne; apply fn_lookup_insert_ne; congruence|].
  split; [reflexivity|].
  destruct (visibleRanges (editors st editor)) as [|visible others] eqn:Hvis.
  - rewrite (updateCursorPosInEditor_run_blind _ _ _ _ Hline Hcol Hvis). reflexivity.
  - rewrite (updateCursorPosInEditor_run _ _ _ _ _ _ Hline Hcol Hvis).
    cbn [trace snd]. destruct (reference_reveal _ _); reflexivity.
Qed.

(** X18. The echo of a cursor update.  After [updateCursorPosInEditor] has
    placed the cursor of an editor at a position (line and column not
    negative), the selection change this causes (one
    collapsed range, engine not in insert mode, editor bound to a window) makes
    the handler send the engine the position of the editor as the update left
    it, with the selection the update wrote, whatever the editor held before. *)
Theorem onSelectionChanged_after_update
    (e : TextEditorSelectionChangeEvent) (st : State)
    (newLine newCol : Z) (s0 : Selection) (winId : Z) :
  0 <= newLine -> 0 <= newCol ->
  isInsertMode modeManager = false ->
  getWinIdForTextEditor bufferManager (textEditor e) = Some winId ->
  winId <> 0 ->
  ev_selections e = [s0] ->
  isEqual (active s0) (anchor s0) = true ->
  let st' := final_state (updateCursorPosInEditor (textEditor e) newLine newCol st) in
  exists jump,
    rpc_batches (trace (onSelectionChanged e st'))
    = [ ("nvim_win_set_cursor",
         [VNum winId;
          VPos (getNeovimCursorPosFromEditor
                  (with_selections [selection_of newLine newCol newLine newCol]
                                   (editors st (textEditor e))))])
        :: jump ].
Proof.
  intros Hline Hcolumn Hins Hwin Hnz Hs Hcol st'. subst st'.
  destruct (onSelectionChanged_collapsed_path e
              (final_state (updateCursorPosInEditor (textEditor e) newLine newCol st))
              s0 winId Hins Hwin Hnz Hs Hcol) as [_ ->].
  rewrite updateCursorPosInEditor_state by assumption.
  cbn [editors]. rewrite fn_lookup_insert.
  eexists. reflexivity.
Qed.

End CursorManager.

(** ** The properties at concrete inputs *)

Import Examples.

(** The visible range is lines 10 to 30 (height 20): line 0, ten lines above,
    is half a height away and gets the jump. *)
Lemma updateCursorPosInEditor_reveal_witness :
  0 <= 0 /\ 0 <= 1
  /\ visibleRanges (editors state 0%nat) = [mkRange (mkPosition 10 0) (mkPosition 30 0)]
  /\ Range_ordered (mkRange (mkPosition 10 0) (mkPosition 30 0))
  /\ reveal_decision (trace (updateCursorPosInEditor 0%nat 0 0 state)) = [Default]
  /\ reveal_decision (trace (updateCursorPosInEditor 0%nat 1 0 state)) = [AtTop].
Proof.
  split; [lia|]. split; [lia|]. split; [reflexivity|]. split; [reflexivity|]. split.
  - refine (proj1 (proj2 (proj2 (proj2 (proj2 (proj2
      (updateCursorPosInEditor_reveal state 0%nat 0 0
         (mkRange (mkPosition 10 0) (mkPosition 30 0)) [] _ _ eq_refl eq_refl))))))
      eq_refl eq_refl); lia.
  - refine (proj1 (proj2 (proj2 (proj2
      (updateCursorPosInEditor_reveal state 0%nat 1 0
         (mkRange (mkPosition 10 0) (mkPosition 30 0)) [] _ _ eq_refl eq_refl))))
      eq_refl); lia.
Defined.

(** The cursor is put at (40, 2) twice: one selection, the same reveal. *)
Lemma updateCursorPosInEditor_idempotent_witness :
  0 <= 40 /\ 0 <= 2
  /\ selections
       (editors (final_state
                   (updateCursorPosInEditor 0%nat 40 2
                      (final_state (updateCursorPosInEditor 0%nat 40 2 state))))
                0%nat)
     = [selection_of 40 2 40 2]
  /\ reveal_decision
       (trace (updateCursorPosInEditor 0%nat 40 2
                 (final_state (updateCursorPosInEditor 0%nat 40 2 state))))
     = reveal_decision (trace (updateCursorPosInEditor 0%nat 40 2 state)).
Proof.
  split; [lia|]. split; [lia|]. split.
  - refine (proj1 (proj2
      (updateCursorPosInEditor_idempotent state 0%nat 40 2 _ _))); lia.
  - refine (proj2 (proj2 (proj2 (proj2 (proj2 (proj2
      (updateCursorPosInEditor_idempotent state 0%nat 40 2 _ _))))))); lia.
Defined.

Lemma onSelectionChanged_insert_mode_witness :
  isInsertMode insert_mode = true
  /\ onSelectionChanged insert_mode bindings forwarding host
       PositionTranslator.editorPositionToNeovimPosition
       PositionTranslator.getNeovimCursorPosFromEditor
       command_move state
     = (Normal tt, state, []).
Proof.
  split; [reflexivity|].
  exact (onSelectionChanged_insert_mode insert_mode bindings forwarding host
           PositionTranslator.editorPositionToNeovimPosition
           PositionTranslator.getNeovimCursorPosFromEditor
           command_move state eq_refl).
Defined.

(** Two cursors set from the keyboard, forwarding on: nothing is sent. *)
Lemma onSelectionChanged_not_forwarded_witness :
  multi_or_non_collapsed (ev_selections keyboard_multi)
  /\ is_Mouse (kind keyboard_multi) = false
  /\ rpc_batches
       (trace (onSelectionChanged normal_mode bindings forwarding host
                 PositionTranslator.editorPositionToNeovimPosition
                 PositionTranslator.getNeovimCursorPosFromEditor
                 keyboard_multi state))
     = [].
Proof.
  assert (Hmulti : multi_or_non_collapsed (ev_selections keyboard_multi)).
  { left. cbn. lia. }
  split; [exact Hmulti|]. split; [reflexivity|].
  exact (onSelectionChanged_not_forwarded normal_mode bindings forwarding host
           PositionTranslator.editorPositionToNeovimPosition
           PositionTranslator.getNeovimCursorPosFromEditor
           keyboard_multi state Hmulti (or_introl eq_refl)).
Defined.

Lemma mouse_drag_non_collapsed : multi_or_non_collapsed (ev_selections mouse_drag).
Proof.
  right. exists (selection_of 0 0 1 5). split; reflexivity.
Defined.

Lemma onSelectionChanged_mouse_without_grid_witness :
  isInsertMode normal_mode = false
  /\ getWinIdForTextEditor bindings_without_grid (textEditor mouse_drag) = Some 1000
  /\ multi_or_non_collapsed (ev_selections mouse_drag)
  /\ kind mouse_drag = Some Mouse
  /\ mouseSelectionEnabled forwarding = true
  /\ isVisualMode normal_mode = false
  /\ getGridIdForWinId bindings_without_grid 1000 = None
  /\ rpc_batches
       (trace (onSelectionChanged normal_mode bindings_without_grid forwarding host
                 PositionTranslator.editorPositionToNeovimPosition
                 PositionTranslator.getNeovimCursorPosFromEditor
                 mouse_drag state))
     = [[("nvim_win_set_cursor", [VNum 1000; VArr [VNum 2; VNum 5]])]].
Proof.
  repeat (split; [first [reflexivity | exact mouse_drag_non_collapsed]|]).
  refine (onSelectionChanged_mouse_without_grid normal_mode bindings_without_grid
            forwarding host
            PositionTranslator.editorPositionToNeovimPosition
            PositionTranslator.getNeovimCursorPosFromEditor
            mouse_drag state (selection_of 0 0 1 5) (selection_of 0 0 1 5) 1000
            eq_refl eq_refl _ eq_refl eq_refl mouse_drag_non_collapsed
            eq_refl eq_refl eq_refl eq_refl).
  lia.
Defined.

(** The drag from (0, 0) to (1, 5): press at row 0, column 0 of grid 2, then
    ["v"], then the cursor at [[2, 5]]. *)
Lemma onSelectionChanged_mouse_starts_visual_witness :
  isInsertMode normal_mode = false
  /\ getWinIdForTextEditor bindings (textEditor mouse_drag) = Some 1000
  /\ multi_or_non_collapsed (ev_selections mouse_drag)
  /\ kind mouse_drag = Some Mouse
  /\ mouseSelectionEnabled forwarding = true
  /\ isVisualMode normal_mode = false
  /\ getGridIdForWinId bindings 1000 = Some 2
  /\ rpc_batches
       (trace (onSelectionChanged normal_mode bindings forwarding host
                 PositionTranslator.editorPositionToNeovimPosition
                 PositionTranslator.getNeovimCursorPosFromEditor
                 mouse_drag state))
     = [[("nvim_input_mouse",
          [VStr "left"; VStr "press"; VStr ""; VNum 2; VNum 0; VNum 0]);
         ("nvim_input", [VStr "v"]);
         ("nvim_win_set_cursor", [VNum 1000; VArr [VNum 2; VNum 5]])]].
Proof.
  repeat (split; [first [reflexivity | exact mouse_drag_non_collapsed]|]).
  refine (onSelectionChanged_mouse_starts_visual normal_mode bindings forwarding host
            PositionTranslator.editorPositionToNeovimPosition
            PositionTranslator.getNeovimCursorPosFromEditor
            mouse_drag state (selection_of 0 0 1 5) (selection_of 0 0 1 5) 1000 2
            eq_refl eq_refl _ eq_refl eq_refl mouse_drag_non_collapsed
            eq_refl eq_refl eq_refl eq_refl _); lia.
Defined.

(** The same drag on a window without a grid: the batch holds the cursor move
    alone, not the three requests. *)
Lemma onSelectionChanged_mouse_counterexample :
  kind mouse_drag = Some Mouse
  /\ multi_or_non_collapsed (ev_selections mouse_drag)
  /\ mouseSelectionEnabled forwarding = true
  /\ getWinIdForTextEditor bindings_without_grid (textEditor mouse_drag) = Some 1000
  /\ isVisualMode normal_mode = false
  /\ rpc_batches
       (trace (onSelectionChanged normal_mode bindings_without_grid forwarding host
                 PositionTranslator.editorPositionToNeovimPosition
                 PositionTranslator.getNeovimCursorPosFromEditor
                 mouse_drag state))
     = [[("nvim_win_set_cursor", [VNum 1000; VArr [VNum 2; VNum 5]])]]
  /\ ~ (exists press,
          rpc_batches
            (trace (onSelectionChanged normal_mode bindings_without_grid forwarding host
                      PositionTranslator.editorPositionToNeovimPosition
                      PositionTranslator.getNeovimCursorPosFromEditor
                      mouse_drag state))
          = [[press; ("nvim_input", [VStr "v"]);
              ("nvim_win_set_cursor", [VNum 1000; VArr [VNum 2; VNum 5]])]]).
Proof.
  repeat (split; [first [reflexivity | exact mouse_drag_non_collapsed]|]).
  intros [press H]. vm_compute in H. discriminate H.
Qed.

(** The move to (2, 3) by a command in the active editor: the cursor at
    [[3, 3]], then the jump entry. *)
Lemma onSelectionChanged_collapsed_records_jump_witness :
  isInsertMode normal_mode = false
  /\ getWinIdForTextEditor bindings (textEditor command_move) = Some 1000
  /\ ev_selections command_move = [selection_of 2 3 2 3]
  /\ unspecified_or_Command (kind command_move) = true
  /\ activeTextEditor host = Some (textEditor command_move)
  /\ rpc_batches
       (trace (onSelectionChanged normal_mode bindings forwarding host
                 PositionTranslator.editorPositionToNeovimPosition
                 PositionTranslator.getNeovimCursorPosFromEditor
                 command_move state))
     = [[("nvim_win_set_cursor", [VNum 1000; VArr [VNum 3; VNum 3]]);
         ("nvim_call_function", [VStr "VSCodeStoreJumpForWin"; VArr [VNum 1000]])]].
Proof.
  repeat (split; [reflexivity|]).
  refine (onSelectionChanged_collapsed_records_jump normal_mode bindings forwarding host
            PositionTranslator.editorPositionToNeovimPosition
            PositionTranslator.getNeovimCursorPosFromEditor
            command_move state (selection_of 2 3 2 3) 1000
            eq_refl eq_refl _ eq_refl eq_refl eq_refl eq_refl).
  discriminate.
Defined.

(** The change reports the cursor at (2, 3); when the waits are over the
    editor holds it at (7, 7).  The batch carries [[8, 7]], the position of the
    editor, not [[3, 3]], the position of the change; whatever the two helpers
    are, the batch is the one a change to (7, 7) gets. *)
Lemma onSelectionChanged_collapsed_counterexample :
  isInsertMode normal_mode = false
  /\ getWinIdForTextEditor bindings (textEditor command_move) = Some 1000
  /\ ev_selections command_move = [selection_of 2 3 2 3]
  /\ isEqual (active (selection_of 2 3 2 3)) (anchor (selection_of 2 3 2 3)) = true
  /\ kind command_move = Some Command
  /\ activeTextEditor host = Some (textEditor command_move)
  /\ rpc_batches
       (trace (onSelectionChanged normal_mode bindings forwarding host
                 PositionTranslator.editorPositionToNeovimPosition
                 PositionTranslator.getNeovimCursorPosFromEditor
                 command_move MoreExamples.state_moved))
     = [[("nvim_win_set_cursor", [VNum 1000; VArr [VNum 8; VNum 7]]);
         ("nvim_call_function", [VStr "VSCodeStoreJumpForWin"; VArr [VNum 1000]])]]
  /\ rpc_batches
       (trace (onSelectionChanged normal_mode bindings forwarding host
                 PositionTranslator.editorPositionToNeovimPosition
                 PositionTranslator.getNeovimCursorPosFromEditor
                 command_move MoreExamples.state_moved))
     <> [[("nvim_win_set_cursor", [VNum 1000; VArr [VNum 3; VNum 3]]);
          ("nvim_call_function", [VStr "VSCodeStoreJumpForWin"; VArr [VNum 1000]])]]
  /\ (forall (translate : TextEditor -> Position -> NvimPos)
             (cursorPos : TextEditor -> NvimPos),
        rpc_batches
          (trace (onSelectionChanged normal_mode bindings forwarding host
                    translate cursorPos command_move MoreExamples.state_moved))
        = rpc_batches
            (trace (onSelectionChanged normal_mode bindings forwarding host
                      translate cursorPos MoreExamples.command_move_later
                      MoreExamples.state_moved))).
Proof.
  repeat (split; [reflexivity|]).
  split.
  - intros H. vm_compute in H. discriminate H.
  - intros translate cursorPos. reflexivity.
Qed.

Lemma batch_well_formed : Forall event_well_formed batch.
Proof. repeat constructor. Defined.

(** Window 1001 has no editor: it is warned about, and the update of window
    1000 is queued all the same. *)
Lemma handleRedrawBatch_unbound_window_witness :
  Forall event_well_formed batch
  /\ completion (handleRedrawBatch bindings host batch state) = Normal tt
  /\ warnings (trace (handleRedrawBatch bindings host batch state))
     = [msg_NoEditorForWinId 1001]
  /\ queued (trace (handleRedrawBatch bindings host batch state)) = [(0%nat, 9, 1)].
Proof.
  split; [exact batch_well_formed|].
  pose proof (handleRedrawBatch_unbound_window bindings host batch state
                batch_well_formed) as (_ & Hc & Hw & Hq & _).
  split; [exact Hc|]. split; [exact Hw | exact Hq].
Defined.

(** Window 1000 is staged at (4, 5) and then at (9, 1): (9, 1) is the position
    staged, queued and applied. *)
Lemma handleRedrawBatch_last_write_wins_witness :
  Forall event_well_formed batch
  /\ viewport_args batch
     = [mkWinViewport 3 1001 0 20 6 0; mkWinViewport 2 1000 0 20 4 5;
        mkWinViewport 3 1001 0 20 7 8]
       ++ mkWinViewport 2 1000 0 20 9 1 :: [mkWinViewport 3 1001 0 20 8 2]
  /\ Forall (fun b => vp_win b <> 1000) [mkWinViewport 3 1001 0 20 8 2]
  /\ completion (scan_batch host batch [] state)
     = Normal [(1001, mkCursorPos 8 2); (1000, mkCursorPos 9 1)]
  /\ (0%nat, 9, 1) ∈ queued (trace (handleRedrawBatch bindings host batch state)).
Proof.
  assert (Hlast : Forall (fun b => vp_win b <> 1000) [mkWinViewport 3 1001 0 20 8 2]).
  { constructor; [cbn; lia | constructor]. }
  split; [exact batch_well_formed|]. split; [reflexivity|]. split; [exact Hlast|].
  pose proof (handleRedrawBatch_last_write_wins bindings host batch state
                [mkWinViewport 3 1001 0 20 6 0; mkWinViewport 2 1000 0 20 4 5;
                 mkWinViewport 3 1001 0 20 7 8]
                [mkWinViewport 3 1001 0 20 8 2]
                (mkWinViewport 2 1000 0 20 9 1)
                batch_well_formed eq_refl Hlast) as (Hscan & _ & _ & _ & Hq).
  split; [exact Hscan|].
  exact (proj1 (Hq 0%nat eq_refl)).
Defined.

(** A batch defines the style of mode "normal"; after [dispose] the map still
    holds it. *)
Lemma dispose_counterexample :
  cursorModes (final_state (handleRedrawBatch bindings host batch state)) !! "normal"
  = Some (mkCursorInfo "block")
  /\ cursorModes
       (final_state
          (dispose (final_state (handleRedrawBatch bindings host batch state))))
     !! "normal"
     = Some (mkCursorInfo "block")
  /\ cursorModes
       (final_state
          (dispose (final_state (handleRedrawBatch bindings host batch state))))
     <> ∅.
Proof.
  split; [vm_compute; reflexivity|]. split; [vm_compute; reflexivity|].
  intros H. apply (f_equal (fun m => m !! "normal")) in H.
  vm_compute in H. discriminate H.
Qed.

(** ** Further properties at concrete inputs *)

Import MoreExamples.

Lemma plain_batch_without_style : Forall (event_without_style state) plain_batch.
Proof. repeat constructor. Defined.

Lemma handleRedrawBatch_without_style_witness :
  Forall (event_without_style state) plain_batch
  /\ completion (handleRedrawBatch bindings host plain_batch state) = Normal tt
  /\ final_state (handleRedrawBatch bindings host plain_batch state) = state.
Proof.
  split; [exact plain_batch_without_style|].
  exact (handleRedrawBatch_without_style bindings host plain_batch state
           plain_batch_without_style).
Defined.

Lemma updateCursorStyle_known_witness :
  cursorModes state_with_modes !! "normal" = Some (mkCursorInfo "block")
  /\ cursorStyle (editors (final_state (updateCursorStyle one_visible (Some "normal")
                                          state_with_modes)) 0%nat) = Block
  /\ cursorStyle (editors (final_state (updateCursorStyle one_visible (Some "normal")
                                          state_with_modes)) 1%nat) = Line.
Proof.
  assert (Hmode : cursorModes state_with_modes !! "normal" = Some (mkCursorInfo "block"))
    by reflexivity.
  split; [exact Hmode|].
  pose proof (updateCursorStyle_known one_visible "normal" (mkCursorInfo "block")
                state_with_modes Hmode) as (_ & _ & _ & Hvis & Hother).
  split.
  - rewrite (Hvis 0%nat); [reflexivity|]. apply list_elem_of_singleton. reflexivity.
  - rewrite (Hother 1%nat); [reflexivity|].
    intros Hin. apply list_elem_of_singleton in Hin. discriminate Hin.
Defined.

Lemma modes_after_normal :
  Forall (fun later => ~ records "normal" later)
         [ mkModeInfo (Some "insert") (Some "vertical");
           mkModeInfo None (Some "block");
           mkModeInfo (Some "replace") (Some "") ].
Proof. repeat constructor; intros [Hrec Hname]; discriminate. Defined.

Lemma mode_info_set_latest_definition_witness :
  records "normal" (mkModeInfo (Some "normal") (Some "horizontal"))
  /\ cursorModes (final_state (handleRedrawBatch bindings host
                                 [mode_info_set [(true, modes)]] state_with_modes))
     !! "normal"
     = Some (mkCursorInfo "horizontal").
Proof.
  assert (Hrec : records "normal" (mkModeInfo (Some "normal") (Some "horizontal")))
    by (split; reflexivity).
  split; [exact Hrec|].
  exact (proj1 (proj2
    (mode_info_set_latest_definition bindings host true
       [mkModeInfo (Some "normal") (Some "block")]
       [ mkModeInfo (Some "insert") (Some "vertical");
         mkModeInfo None (Some "block");
         mkModeInfo (Some "replace") (Some "") ]
       (mkModeInfo (Some "normal") (Some "horizontal")) [] "normal" "horizontal"
       state_with_modes Hrec eq_refl modes_after_normal))).
Defined.

Lemma modes_without_replace : Forall (fun mode => ~ records "replace" mode) modes.
Proof. repeat constructor; intros [Hrec Hname]; discriminate. Defined.

(** The entry for "replace" has an empty shape: it is not recorded. *)
Lemma mode_info_set_skips_witness :
  Forall (fun mode => ~ records "replace" mode) modes
  /\ cursorModes (final_state (handleRedrawBatch bindings host
                                 [mode_info_set [(true, modes)]] state_with_modes))
     !! "replace"
     = None.
Proof.
  split; [exact modes_without_replace|].
  exact (proj2 (mode_info_set_skips bindings host true modes [] "replace"
                  state_with_modes modes_without_replace)).
Defined.

Lemma handleRedrawBatch_split_witness :
  Forall event_well_formed (take 3 batch)
  /\ final_state (handleRedrawBatch bindings host (take 3 batch ++ drop 3 batch) state)
     = final_state (handleRedrawBatch bindings host (drop 3 batch)
                      (final_state (handleRedrawBatch bindings host (take 3 batch) state))).
Proof.
  assert (Hwf : Forall event_well_formed (take 3 batch)) by (repeat constructor).
  split; [exact Hwf|].
  exact (proj1 (handleRedrawBatch_split bindings host (take 3 batch) (drop 3 batch)
                  state Hwf)).
Defined.

(** "normal" is defined as a block, then as horizontal; the change to "normal"
    underlines the cursor of the visible editor. *)
Lemma handleRedrawBatch_define_then_change_witness :
  records "normal" (mkModeInfo (Some "normal") (Some "horizontal"))
  /\ cursorStyle
       (editors (final_state (handleRedrawBatch bindings one_visible
                                [ mode_info_set [(true, modes)];
                                  mode_change [("normal", 0)] ] state)) 0%nat)
     = Underline.
Proof.
  assert (Hrec : records "normal" (mkModeInfo (Some "normal") (Some "horizontal")))
    by (split; reflexivity).
  split; [exact Hrec|].
  pose proof (handleRedrawBatch_define_then_change bindings one_visible true
                [mkModeInfo (Some "normal") (Some "block")]
                [ mkModeInfo (Some "insert") (Some "vertical");
                  mkModeInfo None (Some "block");
                  mkModeInfo (Some "replace") (Some "") ]
                (mkModeInfo (Some "normal") (Some "horizontal")) [] "normal" "horizontal"
                0 [] state Hrec eq_refl modes_after_normal) as (_ & Hvis & _).
  cbn [app] in Hvis. unfold modes.
  rewrite (Hvis 0%nat); [reflexivity|]. apply list_elem_of_singleton. reflexivity.
Defined.

Lemma handleRedrawBatch_missing_modes_witness :
  Forall event_well_formed [win_viewport [mkWinViewport 2 1000 0 20 4 5]]
  /\ completion (handleRedrawBatch bindings host
                   ([win_viewport [mkWinViewport 2 1000 0 20 4 5]]
                    ++ mode_info_set [] :: [mode_change [("normal", 0)]]) state)
     = Throw (TypeError "modes is not iterable")
  /\ trace (handleRedrawBatch bindings host
              ([win_viewport [mkWinViewport 2 1000 0 20 4 5]]
               ++ mode_info_set [] :: [mode_change [("normal", 0)]]) state)
     = [].
Proof.
  assert (Hwf : Forall event_well_formed [win_viewport [mkWinViewport 2 1000 0 20 4 5]])
    by (repeat constructor).
  split; [exact Hwf|].
  pose proof (handleRedrawBatch_missing_modes bindings host
                [win_viewport [mkWinViewport 2 1000 0 20 4 5]]
                [mode_change [("normal", 0)]] state Hwf) as (Hc & Ht & _).
  split; [exact Hc | exact Ht].
Defined.

Lemma handleRedrawBatch_resolves_once_witness :
  Forall event_well_formed batch
  /\ NoDup (lookups (trace (handleRedrawBatch bindings host batch state)))
  /\ lookups (trace (handleRedrawBatch bindings host batch state)) = [1001; 1000].
Proof.
  split; [exact batch_well_formed|].
  split; [|reflexivity].
  exact (proj1 (handleRedrawBatch_resolves_once bindings host batch state
                  batch_well_formed)).
Defined.


(** The move to (2, 3) with an arrow key: the cursor at [[3, 3]], no jump. *)
Lemma onSelectionChanged_collapsed_without_jump_witness :
  isInsertMode normal_mode = false
  /\ ev_selections keyboard_move = [selection_of 2 3 2 3]
  /\ unspecified_or_Command (kind keyboard_move) = false
  /\ rpc_batches
       (trace (onSelectionChanged normal_mode bindings forwarding host
                 PositionTranslator.editorPositionToNeovimPosition
                 PositionTranslator.getNeovimCursorPosFromEditor
                 keyboard_move state))
     = [[("nvim_win_set_cursor", [VNum 1000; VArr [VNum 3; VNum 3]])]].
Proof.
  repeat (split; [reflexivity|]).
  refine (onSelectionChanged_collapsed_without_jump normal_mode bindings forwarding host
            PositionTranslator.editorPositionToNeovimPosition
            PositionTranslator.getNeovimCursorPosFromEditor
            keyboard_move state (selection_of 2 3 2 3) 1000
            eq_refl eq_refl _ eq_refl eq_refl (or_introl eq_refl)).
  lia.
Defined.

Lemma onSelectionChanged_mouse_in_visual_mode_witness :
  isInsertMode visual_mode = false
  /\ isVisualMode visual_mode = true
  /\ kind mouse_drag = Some Mouse
  /\ getGridIdForWinId bindings 1000 = Some 2
  /\ rpc_batches
       (trace (onSelectionChanged visual_mode bindings forwarding host
                 PositionTranslator.editorPositionToNeovimPosition
                 PositionTranslator.getNeovimCursorPosFromEditor
                 mouse_drag state))
     = [[("nvim_win_set_cursor", [VNum 1000; VArr [VNum 2; VNum 5]])]].
Proof.
  repeat (split; [reflexivity|]).
  refine (onSelectionChanged_mouse_in_visual_mode visual_mode bindings forwarding host
            PositionTranslator.editorPositionToNeovimPosition
            PositionTranslator.getNeovimCursorPosFromEditor
            mouse_drag state (selection_of 0 0 1 5) (selection_of 0 0 1 5) 1000
            eq_refl eq_refl _ eq_refl eq_refl mouse_drag_non_collapsed
            eq_refl eq_refl eq_refl).
  lia.
Defined.

Lemma onSelectionChanged_unbound_editor_witness :
  isInsertMode normal_mode = false
  /\ truthy_number (getWinIdForTextEditor bindings_without_window
                      (textEditor command_move)) = false
  /\ completion (onSelectionChanged normal_mode bindings_without_window forwarding host
                   PositionTranslator.editorPositionToNeovimPosition
                   PositionTranslator.getNeovimCursorPosFromEditor
                   command_move state) = Normal tt
  /\ rpc_batches
       (trace (onSelectionChanged normal_mode bindings_without_window forwarding host
                 PositionTranslator.editorPositionToNeovimPosition
                 PositionTranslator.getNeovimCursorPosFromEditor
                 command_move state))
     = [].
Proof.
  split; [reflexivity|]. split; [reflexivity|].
  rewrite (onSelectionChanged_unbound_editor normal_mode bindings_without_window
             forwarding host
             PositionTranslator.editorPositionToNeovimPosition
             PositionTranslator.getNeovimCursorPosFromEditor
             command_move state (selection_of 2 3 2 3) eq_refl eq_refl eq_refl).
  split; reflexivity.
Defined.

(** The two cursors are replaced by the one at (7, 2) before the throw. *)
Lemma updateCursorPosInEditor_without_range_witness :
  visibleRanges (editors state_hidden 0%nat) = []
  /\ completion (updateCursorPosInEditor 0%nat 7 2 state_hidden)
     = Throw (TypeError "visibleRange is undefined")
  /\ selections (editors (final_state (updateCursorPosInEditor 0%nat 7 2 state_hidden))
                         0%nat)
     = [selection_of 7 2 7 2].
Proof.
  split; [reflexivity|].
  assert (Hline : 0 <= 7) by lia. assert (Hcol : 0 <= 2) by lia.
  pose proof (updateCursorPosInEditor_without_range state_hidden 0%nat 7 2
                Hline Hcol eq_refl)
    as (Hc & Hs & _).
  split; [exact Hc | exact Hs].
Defined.

(** The range starts at (10, 4): the target (10, 2) is on its first line but
    before it. *)
Lemma updateCursorPosInEditor_beside_range_witness :
  visibleRanges (editors state_scrolled 0%nat)
  = [mkRange (mkPosition 10 4) (mkPosition 30 0)]
  /\ point_within (mkRange (mkPosition 10 4) (mkPosition 30 0)) (mkPosition 10 2) = false
  /\ 10 <= 10 <= 30
  /\ reveals (trace (updateCursorPosInEditor 0%nat 10 2 state_scrolled)) = [].
Proof.
  split; [reflexivity|]. split; [reflexivity|]. split; [lia|].
  refine (proj2 (proj2
    (updateCursorPosInEditor_beside_range state_scrolled 0%nat 10 2
       (mkRange (mkPosition 10 4) (mkPosition 30 0)) [] _ _ eq_refl eq_refl _)));
    cbn; lia.
Defined.

(** The editor held the cursor (2, 3); after the update to (8, 1) the handler
    sends [[9, 1]]. *)
Lemma onSelectionChanged_after_update_witness :
  isInsertMode normal_mode = false
  /\ ev_selections echo = [selection_of 8 1 8 1]
  /\ exists jump,
       rpc_batches
         (trace (onSelectionChanged normal_mode bindings forwarding host
                   PositionTranslator.editorPositionToNeovimPosition
                   PositionTranslator.getNeovimCursorPosFromEditor
                   echo
                   (final_state (updateCursorPosInEditor 0%nat 8 1 state))))
       = [("nvim_win_set_cursor", [VNum 1000; VArr [VNum 9; VNum 1]]) :: jump].
Proof.
  split; [reflexivity|]. split; [reflexivity|].
  refine (onSelectionChanged_after_update normal_mode bindings forwarding host
            PositionTranslator.editorPositionToNeovimPosition
            PositionTranslator.getNeovimCursorPosFromEditor
            echo state 8 1 (selection_of 8 1 8 1) 1000
            _ _ eq_refl eq_refl _ eq_refl eq_refl); lia.
Defined.

(** The editor held two cursors: they are still there after the rejected
    update. *)
Lemma updateCursorPosInEditor_rejects_witness :
  (-1 < 0 \/ 2 < 0)
  /\ exists what,
       updateCursorPosInEditor 0%nat (-1) 2 state_hidden
       = ( Throw (IllegalArgument what), state_hidden,
           [logger_debug (msg_UpdatingCursorInEditor None (-1) 2)] ).
Proof.
  split; [left; lia|].
  refine (updateCursorPosInEditor_rejects state_hidden 0%nat (-1) 2 _).
  left. lia.
Defined.

(** The target of a frame example: the other editor keeps its two cursors. *)
Lemma updateCursorPosInEditor_frame_witness :
  0 <= 7 /\ 0 <= 2
  /\ selections (editors (final_state (updateCursorPosInEditor 0%nat 7 2 state_hidden))
                         0%nat)
     = [selection_of 7 2 7 2]
  /\ editors (final_state (updateCursorPosInEditor 0%nat 7 2 state_hidden)) 1%nat
     = hidden_editor.
Proof.
  assert (Hline : 0 <= 7) by lia. assert (Hcol : 0 <= 2) by lia.
  split; [exact Hline|]. split; [exact Hcol|].
  pose proof (updateCursorPosInEditor_frame state_hidden 0%nat 7 2 Hline Hcol)
    as (Hed & Hother & _).
  split.
  - rewrite Hed. reflexivity.
  - apply Hother. discriminate.
Defined.
